(** * Terminal tabs list

    A shallow embedding of
    [src/vs/workbench/contrib/terminal/browser/terminalTabsList.ts]:
    the tab list widget ([TerminalTabList]), its row renderer
    ([TerminalTabsRenderer]), its accessibility provider
    ([TerminalTabsAccessibilityProvider]) and its drag-and-drop handler
    ([TerminalTabsDragAndDrop]).

    Conventions of the embedding:
    - a JavaScript [number] that holds an integer is a [Z];
    - a value that may be [undefined] or [null] is an [option];
    - an object compared with [===] carries the reference it lives at;
    - a method that can [throw] returns a [Completion];
    - calls into the terminal services are recorded, in order, as a list of
      [ServiceCall];
    - the body of an [async] method is a [Task]: the calls it makes, and the
      point where it is suspended on a promise;
    - [setTimeout] is a table of pending timers next to a clock. *)

From Stdlib Require Import ZArith List String Ascii Bool Lia DecimalString.
Import ListNotations.

Open Scope string_scope.
Open Scope Z_scope.
Open Scope list_scope.

Notation "s +++ t" := (String.append s t) (at level 60, right associativity).

(** ** JavaScript values *)

Module Js.

(** [if (s)] on a string: the empty string is falsy. *)
Definition truthy (s : string) : bool := negb (s =? "")%string.

(** [if (o)] on [string | undefined]. *)
Definition truthyOpt (o : option string) : bool :=
  match o with
  | Some s => truthy s
  | None => false
  end.

(** [a || b] on [string | undefined] operands. *)
Definition orElse (a b : option string) : option string :=
  if truthyOpt a then a else b.

(** [`${o}`]: a template literal prints an absent value as [undefined]. *)
Definition interpolate (o : option string) : string :=
  match o with
  | Some s => s
  | None => "undefined"
  end.

(** The double quote character. *)
Definition quote : string := String (ascii_of_nat 34) EmptyString.

(** [`${n}`] for an integral number below 10^21 in absolute value, which is
    where instance ids live; from there on JavaScript prints an exponent
    form, which this function does not follow. *)
Definition numberToString (n : Z) : string :=
  NilZero.string_of_int (Z.to_int n).

(** [xs.length]. *)
Definition length {A : Type} (xs : list A) : Z := Z.of_nat (List.length xs).

(** [xs.indexOf(x)] under the equality [same]: the index of the first
    element equal to [x], and [-1] when there is none. *)
Fixpoint indexOfFrom {A : Type} (same : A -> A -> bool) (xs : list A)
         (x : A) (from : Z) : Z :=
  match xs with
  | [] => -1
  | y :: ys => if same y x then from else indexOfFrom same ys x (from + 1)
  end.

Definition indexOf {A : Type} (same : A -> A -> bool) (xs : list A) (x : A) : Z :=
  indexOfFrom same xs x 0.

(** [xs.includes(x)]. *)
Definition includes {A : Type} (same : A -> A -> bool) (xs : list A) (x : A) : bool :=
  existsb (fun y => same y x) xs.

(** An [Error] object, by its message. *)
Record Error : Type := MkError { message : string }.

(** How a call ends: with a value, or with a thrown error. *)
Inductive Completion (A : Type) : Type :=
| Normal (a : A)
| Throw (e : Error).

Arguments Normal {A} a.
Arguments Throw {A} e.

End Js.

Import Js.

(** ** The terminal instance, as the widget reads it *)

Record ThemeColor : Type := { colorId : string }.

Record ThemeIcon : Type := {
  iconId : string;
  iconColor : option ThemeColor
}.

(** [Severity] of [vs/base/common/severity]: a numeric enumeration. *)
Inductive Severity : Type := Ignore | Info | Warning | Error.

Definition severityValue (s : Severity) : Z :=
  match s with
  | Ignore => 0
  | Info => 1
  | Warning => 2
  | Error => 3
  end.

Record IHoverAction : Type := {
  hoverLabel : string;
  hoverCommandId : string
}.

Record ITerminalStatus : Type := {
  statusId : string;
  severity : Severity;
  statusIcon : option ThemeIcon;
  tooltip : option string;
  statusHoverActions : option (list IHoverAction)
}.

Record ITerminalStatusList : Type := {
  statuses : list ITerminalStatus;
  primary : option ITerminalStatus
}.

Record IShellLaunchConfig : Type := {
  executable : option string;
  description : option string
}.

(** [ref] is the identity of the object: two instances are [===] exactly when
    they are the same object, whatever their fields hold. *)
Record ITerminalInstance : Type := {
  ref : nat;
  instanceId : Z;
  title : string;
  icon : option ThemeIcon;
  color : option string;
  statusList : ITerminalStatusList;
  shellLaunchConfig : IShellLaunchConfig;
  shellType : option string;
  isRemote : bool;
  resource : string
}.

Definition sameInstance (a b : ITerminalInstance) : bool :=
  Nat.eqb (ref a) (ref b).

(** [a === b] on [ITerminalInstance | undefined]. *)
Definition sameTarget (a b : option ITerminalInstance) : bool :=
  match a, b with
  | Some x, Some y => sameInstance x y
  | None, None => true
  | _, _ => false
  end.

(** A split group ([ITerminalGroup]): the instances shown side by side. *)
Record ITerminalGroup : Type := {
  terminalInstances : list ITerminalInstance
}.

(** Calls the widget makes on [ITerminalService], on
    [ITerminalInstanceService], on an instance, and on the list it extends
    ([WorkbenchList]) and its context key, in the order made. *)
Inductive ServiceCall : Type :=
| SetActiveInstance (i : ITerminalInstance)
| SplitInstance (i : ITerminalInstance)
| CreateTerminal
| FocusTabs
| PreparePathForTerminalAsync (path : string) (exe : option string)
    (title : string) (shellType : option string) (isRemote : bool)
| InstanceFocus (i : ITerminalInstance) (force : option bool)
| InstanceFocusWhenReady (i : ITerminalInstance)
| InstanceSendText (i : ITerminalInstance) (text : string) (addNewLine : bool)
| InstanceDispose (i : ITerminalInstance)
| ListSetSelection (indexes : list Z)
| ListSetFocus (indexes : list Z)
| ListReveal (index : Z)
| ListFocusNext
| ListSplice (start deleteCount : Z) (elements : list ITerminalInstance)
| ContextKeySet (value : bool).

(** ** Asynchronous methods

    The body of an [async] method: it makes calls, and at an [await] it is
    suspended until the promise of the call before it settles; a rejected
    promise is thrown at the [await]. A method that [drop] or an event
    emitter starts and does not await ends [Resolved] or [Rejected] without
    a caller to throw at. *)
Inductive Task : Type :=
| Resolved
| Rejected (e : Js.Error)
| Call (c : ServiceCall) (k : Task)
| AwaitString (k : Completion string -> Task)
| AwaitVoid (k : Completion unit -> Task).

(** [await p; k] where [p] is the promise of the preceding call. *)
Definition await (k : string -> Task) : Task :=
  AwaitString (fun r => match r with
                        | Normal v => k v
                        | Throw e => Rejected e
                        end).

Definition awaitVoid (k : Task) : Task :=
  AwaitVoid (fun r => match r with
                      | Normal _ => k
                      | Throw e => Rejected e
                      end).

(** The calls a task makes until it is suspended or done, and what is left. *)
Fixpoint runSync (t : Task) : list ServiceCall * Task :=
  match t with
  | Call c k => let '(cs, t') := runSync k in (c :: cs, t')
  | _ => ([], t)
  end.

(** A suspended task whose promise settles with a string. *)
Definition settle (r : Completion string) (t : Task) : list ServiceCall * Task :=
  match t with
  | AwaitString k => runSync (k r)
  | _ => ([], t)
  end.


(** ** [TerminalTabsListSizes] *)

Module TerminalTabsListSizes.
Definition TabHeight : Z := 22.
Definition NarrowViewWidth : Z := 46.
Definition WideViewMinimumWidth : Z := 80.
Definition DefaultWidth : Z := 120.
Definition MidpointViewWidth : Z := (NarrowViewWidth + WideViewMinimumWidth) / 2.
Definition ActionbarMinimumWidth : Z := 105.
Definition MaximumWidth : Z := 500.
End TerminalTabsListSizes.

(** ** What the widget takes from the platform *)

(** The container element, as far as the renderer looks at it. *)
Record HTMLElement : Type := { clientWidth : Z }.

(** An argument of [localize]. *)
Inductive LocalizeArg : Type :=
| ArgNumber (n : Z)
| ArgString (s : string).

Module TerminalCommandId.
Inductive t : Type := SplitInstance | KillInstance.
End TerminalCommandId.

Module Codicon.
Inductive t : Type := splitHorizontal | trashcan.
End Codicon.

(** What the [run] callback of a row action does when it is triggered. *)
Inductive ActionRun : Type :=
| RunSplit (i : ITerminalInstance)
| RunKill (i : ITerminalInstance).

Record Action : Type := {
  actionId : TerminalCommandId.t;
  actionLabel : string;
  actionClass : Codicon.t;
  actionEnabled : bool;
  actionRun : ActionRun
}.

(** An entry of the row's [ActionBar], with the options of [push]. *)
Record ActionBarItem : Type := {
  itemAction : Action;
  itemIcon : bool;
  itemLabel : bool;
  itemKeybinding : option string
}.

(** The argument of [IResourceLabel.setResource]. *)
Record ResourceLabel : Type := {
  labelResource : string;
  labelName : string;
  labelDescription : option string;
  decorationColors : bool;
  decorationBadges : bool;
  titleMarkdown : string;
  extraClasses : option (list string)
}.

(** [ITerminalTabEntryTemplate], reduced to what [renderElement] writes:
    the [has-text] class of [element], the colour it last gave to the
    element of class [codicon] that it found under the row, when it found
    one, the resource of [label], the items of [actionBar],
    [context.hoverActions], and the instances the [auxclick] listeners kept
    in [elementDispoables] would dispose. *)
Record ITerminalTabEntryTemplate : Type := {
  hasTextClass : bool;
  codicon : option string;
  label : option ResourceLabel;
  actionBar : list ActionBarItem;
  hoverActions : option (list IHoverAction);
  elementDispoables : option (list ITerminalInstance)
}.

(** ** [TerminalTabsRenderer] *)

Module TerminalTabsRenderer.

Definition topMarker : string := "┌ ".
Definition bottomMarker : string := "└ ".
Definition middleMarker : string := "├ ".

Definition newline : string := String (ascii_of_nat 10) EmptyString.

(** The marker the specification gives to the member at [position] of a
    group of [size] members. *)
Definition markerAt (size position : nat) : string :=
  if (size <=? 1)%nat then ""
  else if (position =? 0)%nat then topMarker
  else if (position =? size - 1)%nat then bottomMarker
  else middleMarker.

Section Renderer.

(** Constructor arguments and injected services. *)
Variable _container : option HTMLElement.
Variable _getSelection : list (option ITerminalInstance).
Variable getGroupForInstance : ITerminalInstance -> option ITerminalGroup.
Variable localize : string -> string -> list LocalizeArg -> string.
Variable lookupKeybinding : TerminalCommandId.t -> option string.
Variable lastFocusedList : bool.

Definition shouldHideText : bool :=
  match _container with
  | Some c => clientWidth c <? TerminalTabsListSizes.MidpointViewWidth
  | None => false
  end.

Definition shouldHideActionBar : bool :=
  match _container with
  | Some c => clientWidth c <=? TerminalTabsListSizes.ActionbarMinimumWidth
  | None => false
  end.

(** [fillActionBar]: the bar is cleared, then receives the split and the
    kill action of [instance]. *)
Definition fillActionBar (instance : ITerminalInstance)
           (template : ITerminalTabEntryTemplate) : ITerminalTabEntryTemplate :=
  let actions :=
    [ {| actionId := TerminalCommandId.SplitInstance;
         actionLabel := localize "terminal.split" "Split" [];
         actionClass := Codicon.splitHorizontal;
         actionEnabled := true;
         actionRun := RunSplit instance |};
      {| actionId := TerminalCommandId.KillInstance;
         actionLabel := localize "terminal.kill" "Kill" [];
         actionClass := Codicon.trashcan;
         actionEnabled := true;
         actionRun := RunKill instance |} ] in
  {| hasTextClass := hasTextClass template;
     codicon := codicon template;
     label := label template;
     actionBar :=
       map (fun a => {| itemAction := a;
                        itemIcon := true;
                        itemLabel := false;
                        itemKeybinding := lookupKeybinding (actionId a) |})
           actions;
     hoverActions := hoverActions template;
     elementDispoables := elementDispoables template |}.

(** [_runForSelectionOrInstance]: [callback] on every selected instance
    when [instance] is selected, on [instance] alone otherwise; then the
    tabs, and the next element of the last focused list, take focus. *)
Definition _runForSelectionOrInstance (instance : ITerminalInstance)
           (callback : ITerminalInstance -> ServiceCall) : list ServiceCall :=
  let selection := _getSelection in
  let ran :=
    if Js.includes sameTarget selection (Some instance)
    then flat_map (fun s => match s with
                            | Some i => [callback i]
                            | None => []
                            end) selection
    else [callback instance] in
  ran ++ [FocusTabs] ++ (if lastFocusedList then [ListFocusNext] else []).

(** Running a row action. *)
Definition runAction (a : ActionRun) : list ServiceCall :=
  match a with
  | RunSplit i => _runForSelectionOrInstance i SplitInstance
  | RunKill i => _runForSelectionOrInstance i InstanceDispose
  end.

(** Lines 235 to 245 of [renderElement]: the split marker of a row. *)
Definition splitPrefix (group : ITerminalGroup) (instance : ITerminalInstance) : string :=
  if Js.length (terminalInstances group) >? 1 then
    let terminalIndex := Js.indexOf sameInstance (terminalInstances group) instance in
    if terminalIndex =? 0 then topMarker
    else if terminalIndex =? Js.length (terminalInstances group) - 1 then bottomMarker
    else middleMarker
  else "".

(** One turn of the loop over the statuses (lines 250 to 255). *)
Definition addStatus (acc : string * list IHoverAction) (status : ITerminalStatus)
  : string * list IHoverAction :=
  let title' :=
    fst acc +++ newline +++ newline +++ "---" +++ newline +++ newline
        +++ match statusIcon status with
            | Some i => "$(" +++ iconId i +++ ") "
            | None => ""
            end
        +++ Js.interpolate (Js.orElse (tooltip status) (Some (statusId status))) in
  let actions' :=
    match statusHoverActions status with
    | Some hs => snd acc ++ hs
    | None => snd acc
    end in
  (title', actions').

Definition iconIdOf (i : option ThemeIcon) : option string := option_map iconId i.

(** Lines 258 to 275: the text of the row, without its marker. *)
Definition labelBody (hasText : bool) (instance : ITerminalInstance) : string :=
  if negb hasText then
    match primary (statusList instance) with
    | Some primaryStatus =>
        if severityValue (severity primaryStatus) >? severityValue Ignore
        then "$(" +++ Js.interpolate (Js.orElse (iconIdOf (statusIcon primaryStatus))
                                             (iconIdOf (icon instance))) +++ ")"
        else "$(" +++ Js.interpolate (iconIdOf (icon instance)) +++ ")"
    | None => "$(" +++ Js.interpolate (iconIdOf (icon instance)) +++ ")"
    end
  else
    "$(" +++ Js.interpolate (iconIdOf (icon instance)) +++ ")"
         +++ match icon instance with
             | Some _ => " " +++ title instance
             | None => ""
             end.

Definition codiconColor (instance : ITerminalInstance) : string :=
  match icon instance with
  | Some i =>
      match iconColor i with
      | Some c => if Js.truthy (colorId c) then colorId c else ""
      | None => ""
      end
  | None => ""
  end.

(** [template.element.querySelector('.codicon')]: the first element of
    class [codicon] under the row, which is the icon of the label once a
    resource has been set on it, and else the icon of the first action of
    the bar; the model keeps of it only that it is there. *)
Definition querySelectorCodicon (template : ITerminalTabEntryTemplate) : option unit :=
  match label template, actionBar template with
  | None, [] => None
  | _, _ => Some tt
  end.

Definition renderElement (instance : ITerminalInstance) (index : Z)
           (template : ITerminalTabEntryTemplate)
  : Completion ITerminalTabEntryTemplate :=
  match getGroupForInstance instance with
  | None =>
      Throw (MkError ("Could not find group for instance " +++ Js.quote
                        +++ Js.numberToString (instanceId instance) +++ Js.quote))
  | Some group =>
      let hasText := negb shouldHideText in
      let prefix := splitPrefix group instance in
      let '(title, hovers) :=
        fold_left addStatus (statuses (statusList instance)) (title instance, []) in
      let hasActionbar := negb shouldHideActionBar in
      let template1 := if hasText then fillActionBar instance template else template in
      let name := prefix +++ labelBody hasText instance in
      Normal
        {| hasTextClass := hasText;
           codicon := option_map (fun _ => codiconColor instance)
                                 (querySelectorCodicon template1);
           label :=
             Some {| labelResource := resource instance;
                     labelName := name;
                     labelDescription :=
                       if hasText then description (shellLaunchConfig instance) else None;
                     decorationColors := true;
                     decorationBadges := hasText;
                     titleMarkdown := title;
                     extraClasses :=
                       match color instance with
                       | Some c => if Js.truthy c
                                   then Some ["terminal-icon-" +++ c]
                                   else None
                       | None => None
                       end |};
           actionBar := if hasActionbar then actionBar template1 else [];
           hoverActions := Some hovers;
           elementDispoables :=
             Some (match elementDispoables template1 with
                   | Some ds => ds ++ [instance]
                   | None => [instance]
                   end) |}
  end.

(** The [auxclick] listener that [renderElement] installs for [instance]:
    a middle click kills the terminal. *)
Definition onAuxClick (instance : ITerminalInstance) (button : Z) : list ServiceCall :=
  if button =? 1 then [InstanceDispose instance] else [].

(** [disposeElement]. *)
Definition disposeElement (instance : ITerminalInstance) (index : Z)
           (templateData : ITerminalTabEntryTemplate) : ITerminalTabEntryTemplate :=
  {| hasTextClass := hasTextClass templateData;
     codicon := codicon templateData;
     label := label templateData;
     actionBar := actionBar templateData;
     hoverActions := hoverActions templateData;
     elementDispoables := None |}.

End Renderer.

End TerminalTabsRenderer.

(** ** [localize]

    [vs/nls] is outside this file; the renderer and the provider take [localize] as a
    parameter. [Nls.format] is the instance used in examples: it fills each
    placeholder [{d}], [d] a digit, with the argument of that index. *)

Module Nls.

Definition printArg (a : LocalizeArg) : string :=
  match a with
  | ArgNumber n => Js.numberToString n
  | ArgString s => s
  end.

Definition digit (c : ascii) : option nat :=
  let n := nat_of_ascii c in
  if ((48 <=? n) && (n <=? 57))%nat then Some (n - 48)%nat else None.

Fixpoint format (message : string) (args : list LocalizeArg) : string :=
  match message with
  | String "{" (String d (String "}" rest as tail) as afterBrace) =>
      match digit d with
      | Some n =>
          match nth_error args n with
          | Some a => printArg a +++ format rest args
          | None => String "{" (String d (String "}" (format rest args)))
          end
      | None => String "{" (String d (format tail args))
      end
  | String c rest => String c (format rest args)
  | EmptyString => EmptyString
  end.

Definition localize (key message : string) (args : list LocalizeArg) : string :=
  format message args.

End Nls.

(** ** [TerminalTabsAccessibilityProvider] *)

Module TerminalTabsAccessibilityProvider.

Section Provider.

Variable getGroupForInstance : ITerminalInstance -> option ITerminalGroup.
Variable localize : string -> string -> list LocalizeArg -> string.

Definition getWidgetAriaLabel : string :=
  localize "terminal.tabs" "Terminal tabs" [].

Definition splitLabel (instance : ITerminalInstance) (tab : ITerminalGroup) : string :=
  let terminalIndex := Js.indexOf sameInstance (terminalInstances tab) instance in
  localize "splitTerminalAriaLabel" "Terminal {0} {1}, split {2} of {3}"
           [ArgNumber (instanceId instance); ArgString (title instance);
            ArgNumber (terminalIndex + 1);
            ArgNumber (Js.length (terminalInstances tab))].

Definition plainLabel (instance : ITerminalInstance) : string :=
  localize "terminalAriaLabel" "Terminal {0} {1}"
           [ArgNumber (instanceId instance); ArgString (title instance)].

Definition getAriaLabel (instance : ITerminalInstance) : string :=
  match getGroupForInstance instance with
  | Some tab =>
      if Js.length (terminalInstances tab) >? 1
      then splitLabel instance tab
      else plainLabel instance
  | None => plainLabel instance
  end.

End Provider.

End TerminalTabsAccessibilityProvider.

(** ** [TerminalTabList]: the handlers the constructor installs *)

Module TerminalTabList.

(** [IListMouseEvent], [IListContextMenuEvent]: the modifier key and the
    row under the pointer, if any. *)
Record IListMouseEvent : Type := {
  altKey : bool;
  element : option ITerminalInstance;
  index : option Z
}.

Record IOpenEvent : Type := {
  openElement : option ITerminalInstance;
  preserveFocus : bool
}.

(** The virtual delegate and the identity provider of the list. *)
Definition getHeight : Z := TerminalTabsListSizes.TabHeight.

Definition getTemplateId : string := "terminal.tabs".

Definition getId (e : option ITerminalInstance) : option Z := option_map instanceId e.

(** [render]; [length] is the number of rows the list holds. *)
Definition render (length : Z) (instances : list ITerminalInstance) : list ServiceCall :=
  [ListSplice 0 length instances].

(** [onActiveInstanceChanged]. *)
Definition onActiveInstanceChanged (instances : list ITerminalInstance)
           (e : option ITerminalInstance) : list ServiceCall :=
  match e with
  | Some e =>
      let i := Js.indexOf sameInstance instances e in
      [ListSetSelection [i]; ListReveal i]
  | None => []
  end.

(** [onMouseDblClick]; [getFocus] is the list's focused indexes and
    [created] what [createTerminal] returns. *)
Definition onMouseDblClick (getFocus : list Z) (created : ITerminalInstance) : Task :=
  if Js.length getFocus =? 0 then
    Call CreateTerminal
      (Call (SetActiveInstance created)
         (Call (InstanceFocusWhenReady created) (awaitVoid Resolved)))
  else Resolved.

(** [onMouseClick]; [focusMode] is the configured value of
    [TerminalSettingId.TabsFocusMode] and [getSelection] the list's
    selected indexes. *)
Definition onMouseClick (focusMode : string) (getSelection : list Z)
           (e : IListMouseEvent) : list ServiceCall :=
  match altKey e, element e with
  | true, Some el => [SplitInstance el]
  | _, _ =>
      if (focusMode =? "singleClick")%string then
        if Js.length getSelection <=? 1 then
          match element e with
          | Some el => [InstanceFocus el (Some true)]
          | None => []
          end
        else []
      else []
  end.

(** [onContextMenu]; [getSelectedElements] is the list's selection. *)
Definition onContextMenu (getSelectedElements : option (list ITerminalInstance))
           (e : IListMouseEvent) : list ServiceCall :=
  match element e with
  | None => [ListSetSelection []]
  | Some el =>
      let found :=
        match getSelectedElements with
        | Some selection => existsb (fun s => sameInstance el s) selection
        | None => false
        end in
      if negb found then
        [ListSetFocus match index e with
                      | Some i => [i]
                      | None => []
                      end]
      else []
  end.

(** [onDidChangeSelection] and [onDidChangeFocus]. *)
Definition onDidChange (elements : list ITerminalInstance) : list ServiceCall :=
  [ContextKeySet (Js.length elements =? 1)].

(** [onDidOpen]. *)
Definition onDidOpen (e : IOpenEvent) : Task :=
  match openElement e with
  | None => Resolved
  | Some instance =>
      Call (SetActiveInstance instance)
        (if negb (preserveFocus e)
         then Call (InstanceFocusWhenReady instance) (awaitVoid Resolved)
         else Resolved)
  end.

End TerminalTabList.

(** ** [TerminalTabsDragAndDrop] *)

Module TerminalTabsDragAndDrop.

(** [IDragAndDropData]: [onDragOver] and [drop] only ask whether the data
    is an [ElementsDragAndDropData], that is a drag of rows of a list. *)
Inductive IDragAndDropData : Type :=
| ElementsDragAndDropData (elements : list ITerminalInstance)
| ExternalDragAndDropData.

Definition isElementsData (data : IDragAndDropData) : bool :=
  match data with
  | ElementsDragAndDropData _ => true
  | ExternalDragAndDropData => false
  end.

(** A dragged [File]; [path] exists under Electron only. *)
Record File : Type := { path : option string }.

Record DataTransfer : Type := {
  getData : string -> string;
  files : list File
}.

Record DragEvent : Type := { dataTransfer : option DataTransfer }.

(** A pending [setTimeout]: when it is due, and the [targetInstance] its
    callback closed over. *)
Record Timer : Type := {
  timerId : nat;
  due : Z;
  callbackTarget : ITerminalInstance
}.

(** [Disposable.None], or what [disposableTimeout] returned. *)
Inductive IDisposable : Type :=
| DisposableNone
| TimeoutDisposable (id : nat).

(** The two fields of the handler, the clock and timer table of the event
    loop it runs on, and the calls made so far. *)
Record State : Type := {
  _autoFocusInstance : option ITerminalInstance;
  _autoFocusDisposable : IDisposable;
  now : Z;
  timers : list Timer;
  nextTimerId : nat;
  calls : list ServiceCall
}.

(** A new handler on an idle event loop. *)
Definition initial : State :=
  {| _autoFocusInstance := None;
     _autoFocusDisposable := DisposableNone;
     now := 0;
     timers := [];
     nextTimerId := 0;
     calls := [] |}.

Definition setAutoFocusInstance (v : option ITerminalInstance) (s : State) : State :=
  {| _autoFocusInstance := v;
     _autoFocusDisposable := _autoFocusDisposable s;
     now := now s;
     timers := timers s;
     nextTimerId := nextTimerId s;
     calls := calls s |}.

Definition record (cs : list ServiceCall) (s : State) : State :=
  {| _autoFocusInstance := _autoFocusInstance s;
     _autoFocusDisposable := _autoFocusDisposable s;
     now := now s;
     timers := timers s;
     nextTimerId := nextTimerId s;
     calls := calls s ++ cs |}.

(** [d.dispose()]: a timeout that is still pending is cleared. *)
Definition dispose (d : IDisposable) (s : State) : State :=
  match d with
  | DisposableNone => s
  | TimeoutDisposable id =>
      {| _autoFocusInstance := _autoFocusInstance s;
         _autoFocusDisposable := _autoFocusDisposable s;
         now := now s;
         timers := filter (fun tm => negb (Nat.eqb (timerId tm) id)) (timers s);
         nextTimerId := nextTimerId s;
         calls := calls s |}
  end.

Definition autoFocusDelay : Z := 500.

(** [this._autoFocusDisposable = disposableTimeout(callback, 500)], the
    callback being the one of [onDragOver] for [targetInstance]. *)
Definition disposableTimeout (targetInstance : ITerminalInstance) (s : State) : State :=
  {| _autoFocusInstance := _autoFocusInstance s;
     _autoFocusDisposable := TimeoutDisposable (nextTimerId s);
     now := now s;
     timers := timers s ++ [ {| timerId := nextTimerId s;
                                due := now s + autoFocusDelay;
                                callbackTarget := targetInstance |} ];
     nextTimerId := S (nextTimerId s);
     calls := calls s |}.

(** The callback of the timeout (lines 430 and 431). *)
Definition autoFocusCallback (s : State) (tm : Timer) : State :=
  setAutoFocusInstance None (record [SetActiveInstance (callbackTarget tm)] s).

Definition isDue (t : Z) (tm : Timer) : bool := due tm <=? t.

(** The event loop up to time [t]: the timers due by then run, oldest
    first (every timer has the same delay, so that is the order in which
    they are due), and leave the table. *)
Definition advance (t : Z) (s : State) : State :=
  let s' := fold_left autoFocusCallback (filter (isDue t) (timers s)) s in
  {| _autoFocusInstance := _autoFocusInstance s';
     _autoFocusDisposable := _autoFocusDisposable s';
     now := Z.max (now s) t;
     timers := filter (fun tm => negb (isDue t tm)) (timers s);
     nextTimerId := nextTimerId s';
     calls := calls s' |}.

Definition getDragURI (instance : ITerminalInstance) : option string := None.

Definition onDragOver (data : IDragAndDropData)
           (targetInstance : option ITerminalInstance)
           (targetIndex : option Z) (originalEvent : DragEvent)
           (s : State) : bool * State :=
  let result := true in
  let didChangeAutoFocusInstance := negb (sameTarget (_autoFocusInstance s) targetInstance) in
  let s1 :=
    if didChangeAutoFocusInstance
    then setAutoFocusInstance targetInstance (dispose (_autoFocusDisposable s) s)
    else s in
  match targetInstance with
  | None => (result, s1)
  | Some target =>
      let isExternalDragOver := negb (isElementsData data) in
      if didChangeAutoFocusInstance && isExternalDragOver
      then (result, disposableTimeout target s1)
      else (result, s1)
  end.

Section ExternalDrop.

(** [DataTransfers.RESOURCES], and the two ways a path is read from the
    payload: [URI.parse(JSON.parse(resources)[0]).fsPath], which throws
    on text that does not parse, and [URI.file(p).fsPath]. *)
Variable RESOURCES : string.
Variable resourcesFsPath : string -> Completion string.
Variable fileFsPath : string -> string.

(** Lines 454 to 461: the path of the payload, if it has one. *)
Definition droppedPath (transfer : DataTransfer) : Completion (option string) :=
  let resources := getData transfer RESOURCES in
  if Js.truthy resources then
    match resourcesFsPath resources with
    | Normal p => Normal (Some p)
    | Throw e => Throw e
    end
  else
    match files transfer with
    | f :: _ =>
        match path f with
        | Some p => if Js.truthy p then Normal (Some (fileFsPath p)) else Normal None
        | None => Normal None
        end
    | [] => Normal None
    end.

Definition _handleExternalDrop (instance : option ITerminalInstance) (e : DragEvent) : Task :=
  match instance, dataTransfer e with
  | Some instance, Some transfer =>
      match droppedPath transfer with
      | Throw err => Rejected err
      | Normal None => Resolved
      | Normal (Some path) =>
          if negb (Js.truthy path) then Resolved
          else
            Call (SetActiveInstance instance)
              (Call (PreparePathForTerminalAsync
                       path
                       (executable (shellLaunchConfig instance))
                       (title instance) (shellType instance) (isRemote instance))
                 (await (fun preparedPath =>
                    Call (InstanceSendText instance preparedPath false)
                      (Call (InstanceFocus instance None) Resolved))))
      end
  | _, _ => Resolved
  end.

(** [drop]: the state when [drop] returns, and the task it started and
    left running. *)
Definition drop (data : IDragAndDropData) (targetInstance : option ITerminalInstance)
           (targetIndex : option Z) (originalEvent : DragEvent)
           (s : State) : State * Task :=
  let s1 := setAutoFocusInstance None (dispose (_autoFocusDisposable s) s) in
  let isExternalDrop := negb (isElementsData data) in
  if isExternalDrop then
    let '(cs, pending) := runSync (_handleExternalDrop targetInstance originalEvent) in
    (record cs s1, pending)
  else (s1, Resolved).

(** The promise of [preparePathForTerminalAsync] settles with [r]: the
    task [drop] left suspended goes on. *)
Definition resume (r : Completion string) (st : State * Task) : State * Task :=
  let '(cs, pending) := settle r (snd st) in
  (record cs (fst st), pending).

End ExternalDrop.

(** *** Sequences of drag-over events *)

Record DragOverEvent : Type := {
  eventTime : Z;
  eventData : IDragAndDropData;
  eventTarget : option ITerminalInstance
}.

Definition noEvent : DragEvent := {| dataTransfer := None |}.

(** The event loop reaches the time of the event, then the handler runs. *)
Definition deliver (s : State) (e : DragOverEvent) : State :=
  snd (onDragOver (eventData e) (eventTarget e) None noEvent (advance (eventTime e) s)).

Definition deliverAll (es : list DragOverEvent) (s : State) : State :=
  fold_left deliver es s.

Definition externalOver (t : Z) (i : ITerminalInstance) : DragOverEvent :=
  {| eventTime := t; eventData := ExternalDragAndDropData; eventTarget := Some i |}.

(** How many times [setActiveInstance(i)] was called. *)
Definition isActivationOf (i : ITerminalInstance) (c : ServiceCall) : bool :=
  match c with
  | SetActiveInstance j => sameInstance i j
  | _ => false
  end.

Definition activations (i : ITerminalInstance) (cs : list ServiceCall) : nat :=
  List.length (filter (isActivationOf i) cs).

(** Whether a call sends text to [i]. *)
Definition isSendTextTo (i : ITerminalInstance) (c : ServiceCall) : bool :=
  match c with
  | InstanceSendText j _ _ => sameInstance i j
  | _ => false
  end.

End TerminalTabsDragAndDrop.

(** ** Sample data *)

Module Samples.

Definition terminalIcon : ThemeIcon := {| iconId := "terminal"; iconColor := None |}.

Definition instance (r : nat) (name : string) : ITerminalInstance :=
  {| ref := r;
     instanceId := Z.of_nat r + 1;
     title := name;
     icon := Some terminalIcon;
     color := None;
     statusList := {| statuses := []; primary := None |};
     shellLaunchConfig := {| executable := Some "/bin/sh"; description := None |};
     shellType := None;
     isRemote := false;
     resource := "vscode-terminal:/" +++ name |}.

Definition bash : ITerminalInstance := instance 0 "bash".
Definition zsh : ITerminalInstance := instance 1 "zsh".
Definition fish : ITerminalInstance := instance 2 "fish".

(** Three terminals split side by side. *)
Definition split3 : ITerminalGroup := {| terminalInstances := [bash; zsh; fish] |}.

Definition inSplit3 (i : ITerminalInstance) : option ITerminalGroup := Some split3.
Definition noGroup (i : ITerminalInstance) : option ITerminalGroup := None.
Definition noKeybinding (c : TerminalCommandId.t) : option string := None.

Definition emptyTemplate : ITerminalTabEntryTemplate :=
  {| hasTextClass := false;
     codicon := None;
     label := None;
     actionBar := [];
     hoverActions := None;
     elementDispoables := None |}.

Definition wide : HTMLElement := {| clientWidth := 120 |}.
Definition narrow : HTMLElement := {| clientWidth := 46 |}.

(** A payload as the file explorer builds it, and the reading of it. *)
Definition resourcesKey : string := "ResourceURLs".

Definition explorerResources : string :=
  "[" +++ Js.quote +++ "file:///home/u/a.txt" +++ Js.quote +++ "]".

Definition explorerTransfer : TerminalTabsDragAndDrop.DataTransfer :=
  {| TerminalTabsDragAndDrop.getData :=
       fun format => if (format =? resourcesKey)%string
                     then explorerResources else "";
     TerminalTabsDragAndDrop.files := [] |}.

Definition emptyTransfer : TerminalTabsDragAndDrop.DataTransfer :=
  {| TerminalTabsDragAndDrop.getData := fun _ => "";
     TerminalTabsDragAndDrop.files := [] |}.

Definition readResources (resources : string) : Completion string :=
  if (resources =? explorerResources)%string
  then Normal "/home/u/a.txt"
  else Throw (MkError "Unexpected token").

Definition readFile (p : string) : string := p.

End Samples.

(** ** The entry points of the component

    The methods and handlers of the file, with their arguments, and how
    invoking each ends; [renderTemplate] and the hover delegate, which only
    build widgets of the platform, are left out. Only [renderElement] is a
    method that can throw; the others return, and the asynchronous ones
    return after the calls they make before their first [await], leaving a
    task behind. *)

Module Component.

Import TerminalTabsDragAndDrop.

Inductive EntryPoint : Type :=
| GetHeight
| GetTemplateId
| GetId (e : option ITerminalInstance)
| Render (length : Z) (instances : list ITerminalInstance)
| OnActiveInstanceChanged (instances : list ITerminalInstance) (e : option ITerminalInstance)
| OnMouseDblClick (getFocus : list Z) (created : ITerminalInstance)
| OnMouseClick (focusMode : string) (getSelection : list Z) (e : TerminalTabList.IListMouseEvent)
| OnContextMenu (getSelectedElements : option (list ITerminalInstance))
    (e : TerminalTabList.IListMouseEvent)
| OnDidChange (elements : list ITerminalInstance)
| OnDidOpen (e : TerminalTabList.IOpenEvent)
| ShouldHideText (container : option HTMLElement)
| ShouldHideActionBar (container : option HTMLElement)
| RenderElement (container : option HTMLElement)
    (getGroupForInstance : ITerminalInstance -> option ITerminalGroup)
    (localize : string -> string -> list LocalizeArg -> string)
    (lookupKeybinding : TerminalCommandId.t -> option string)
    (instance : ITerminalInstance) (index : Z) (template : ITerminalTabEntryTemplate)
| OnAuxClick (instance : ITerminalInstance) (button : Z)
| DisposeElement (instance : ITerminalInstance) (index : Z)
    (template : ITerminalTabEntryTemplate)
| FillActionBar (localize : string -> string -> list LocalizeArg -> string)
    (lookupKeybinding : TerminalCommandId.t -> option string)
    (instance : ITerminalInstance) (template : ITerminalTabEntryTemplate)
| RunAction (getSelection : list (option ITerminalInstance)) (lastFocusedList : bool)
    (a : ActionRun)
| GetWidgetAriaLabel (localize : string -> string -> list LocalizeArg -> string)
| GetAriaLabel (getGroupForInstance : ITerminalInstance -> option ITerminalGroup)
    (localize : string -> string -> list LocalizeArg -> string)
    (instance : ITerminalInstance)
| GetDragURI (instance : ITerminalInstance)
| OnDragOver (data : IDragAndDropData) (targetInstance : option ITerminalInstance)
    (targetIndex : option Z) (originalEvent : DragEvent) (s : State)
| AutoFocusTimeout (s : State) (tm : Timer)
| Drop (RESOURCES : string) (resourcesFsPath : string -> Completion string)
    (fileFsPath : string -> string)
    (data : IDragAndDropData) (targetInstance : option ITerminalInstance)
    (targetIndex : option Z) (originalEvent : DragEvent) (s : State).

Inductive Outcome : Type :=
| Calls (cs : list ServiceCall)
| Started (cs : list ServiceCall) (pending : Task)
| Flag (b : bool)
| Number (n : option Z)
| Text (s : option string)
| Ran (s : State)
| Rendered (template : ITerminalTabEntryTemplate)
| DraggedOver (accepted : bool) (s : State)
| Dropped (s : State) (pending : Task).

Definition started (t : Task) : Outcome :=
  let '(cs, pending) := runSync t in Started cs pending.

Definition invoke (ep : EntryPoint) : Completion Outcome :=
  match ep with
  | GetHeight => Normal (Number (Some TerminalTabList.getHeight))
  | GetTemplateId => Normal (Text (Some TerminalTabList.getTemplateId))
  | GetId e => Normal (Number (TerminalTabList.getId e))
  | Render length instances => Normal (Calls (TerminalTabList.render length instances))
  | OnActiveInstanceChanged instances e =>
      Normal (Calls (TerminalTabList.onActiveInstanceChanged instances e))
  | OnMouseDblClick getFocus created =>
      Normal (started (TerminalTabList.onMouseDblClick getFocus created))
  | OnMouseClick focusMode getSelection e =>
      Normal (Calls (TerminalTabList.onMouseClick focusMode getSelection e))
  | OnContextMenu getSelectedElements e =>
      Normal (Calls (TerminalTabList.onContextMenu getSelectedElements e))
  | OnDidChange elements =>
      Normal (Calls (TerminalTabList.onDidChange elements))
  | OnDidOpen e =>
      Normal (started (TerminalTabList.onDidOpen e))
  | ShouldHideText container =>
      Normal (Flag (TerminalTabsRenderer.shouldHideText container))
  | ShouldHideActionBar container =>
      Normal (Flag (TerminalTabsRenderer.shouldHideActionBar container))
  | RenderElement container getGroupForInstance localize lookupKeybinding
                  instance index template =>
      match TerminalTabsRenderer.renderElement container getGroupForInstance localize
                                               lookupKeybinding instance index template with
      | Normal t => Normal (Rendered t)
      | Throw e => Throw e
      end
  | OnAuxClick instance button =>
      Normal (Calls (TerminalTabsRenderer.onAuxClick instance button))
  | DisposeElement instance index template =>
      Normal (Rendered (TerminalTabsRenderer.disposeElement instance index template))
  | FillActionBar localize lookupKeybinding instance template =>
      Normal (Rendered (TerminalTabsRenderer.fillActionBar localize lookupKeybinding
                                                           instance template))
  | RunAction getSelection lastFocusedList a =>
      Normal (Calls (TerminalTabsRenderer.runAction getSelection lastFocusedList a))
  | GetWidgetAriaLabel localize =>
      Normal (Text (Some (TerminalTabsAccessibilityProvider.getWidgetAriaLabel localize)))
  | GetAriaLabel getGroupForInstance localize instance =>
      Normal (Text (Some (TerminalTabsAccessibilityProvider.getAriaLabel
                            getGroupForInstance localize instance)))
  | GetDragURI instance =>
      Normal (Text (getDragURI instance))
  | OnDragOver data targetInstance targetIndex originalEvent s =>
      let '(accepted, s') := onDragOver data targetInstance targetIndex originalEvent s in
      Normal (DraggedOver accepted s')
  | AutoFocusTimeout s tm => Normal (Ran (autoFocusCallback s tm))
  | Drop RESOURCES resourcesFsPath fileFsPath data targetInstance targetIndex
         originalEvent s =>
      let '(s', pending) :=
        drop RESOURCES resourcesFsPath fileFsPath data targetInstance targetIndex
             originalEvent s in
      Normal (Dropped s' pending)
  end.


End Component.

(** ** The component under the rules of JavaScript for absent values

    The methods and handlers once more, line by line, this time with every
    use of a value that may be [undefined] or [null] written as the code
    writes it: a test ([isAbsent]), an optional chain ([optional],
    [optionalCall]), or a plain use, [present], which throws when the value
    is absent, as reading a property of [undefined] does. Here every method
    can throw; that the guards of the code keep it from doing so is proved
    below. *)

Module Strict.

Import TerminalTabsDragAndDrop.

(** The error of using an absent value as if it were there. *)
Definition absent (what : string) : Js.Error :=
  MkError ("TypeError: " +++ what +++ " is undefined").

(** [o.p], [o.m()], or [o] handed to a method that takes an instance. *)
Definition present {A : Type} (what : string) (o : option A) : Completion A :=
  match o with
  | Some a => Normal a
  | None => Throw (absent what)
  end.

(** [!o]. *)
Definition isAbsent {A : Type} (o : option A) : bool :=
  match o with
  | Some _ => false
  | None => true
  end.

(** [o?.p]. *)
Definition optional {A B : Type} (o : option A) (p : A -> B) : option B :=
  option_map p o.

(** [o?.m()]. *)
Definition optionalCall {A : Type} (o : option A) (m : A -> list ServiceCall)
  : list ServiceCall :=
  match o with
  | Some a => m a
  | None => []
  end.

Definition bind {A B : Type} (c : Completion A) (k : A -> Completion B) : Completion B :=
  match c with
  | Normal a => k a
  | Throw e => Throw e
  end.

Notation "x <- c ;; k" := (bind c (fun x => k))
  (at level 61, c at next level, right associativity).

(** A loop whose body may throw. *)
Fixpoint foldM {A B : Type} (f : A -> B -> Completion A) (xs : list B) (a : A)
  : Completion A :=
  match xs with
  | [] => Normal a
  | x :: rest => bind (f a x) (foldM f rest)
  end.

(** In an [async] method what is thrown rejects the promise. *)
Definition presentT {A : Type} (what : string) (o : option A) (k : A -> Task) : Task :=
  match o with
  | Some a => k a
  | None => Rejected (absent what)
  end.

Definition lift {A : Type} (c : Completion A) (k : A -> Task) : Task :=
  match c with
  | Normal a => k a
  | Throw e => Rejected e
  end.

(** *** [TerminalTabList] *)

(** [getId: e => e?.instanceId]. *)
Definition getId (e : option ITerminalInstance) : Completion (option Z) :=
  Normal (optional e instanceId).

Definition onActiveInstanceChanged (instances : list ITerminalInstance)
           (e : option ITerminalInstance) : Completion (list ServiceCall) :=
  if isAbsent e then Normal []
  else
    e' <- present "e" e ;;
    let i := Js.indexOf sameInstance instances e' in
    Normal [ListSetSelection [i]; ListReveal i].

Definition onMouseClick (focusMode : string) (getSelection : list Z)
           (e : TerminalTabList.IListMouseEvent) : Completion (list ServiceCall) :=
  if TerminalTabList.altKey e && negb (isAbsent (TerminalTabList.element e)) then
    el <- present "e.element" (TerminalTabList.element e) ;;
    Normal [SplitInstance el]
  else if (focusMode =? "singleClick")%string then
    if Js.length getSelection <=? 1 then
      Normal (optionalCall (TerminalTabList.element e)
                           (fun el => [InstanceFocus el (Some true)]))
    else Normal []
  else Normal [].

Definition onContextMenu (getSelectedElements : option (list ITerminalInstance))
           (e : TerminalTabList.IListMouseEvent) : Completion (list ServiceCall) :=
  if isAbsent (TerminalTabList.element e) then Normal [ListSetSelection []]
  else
    let selection := getSelectedElements in
    notFound <- (if isAbsent selection then Normal true
                 else
                   selected <- present "selection" selection ;;
                   Normal (negb (existsb (fun s => sameTarget (TerminalTabList.element e)
                                                              (Some s))
                                         selected))) ;;
    if (notFound : bool) then
      Normal [ListSetFocus match TerminalTabList.index e with
                           | Some i => [i]
                           | None => []
                           end]
    else Normal [].

Definition onDidOpen (e : TerminalTabList.IOpenEvent) : Task :=
  let instance := TerminalTabList.openElement e in
  if isAbsent instance then Resolved
  else
    presentT "instance" instance (fun active =>
      Call (SetActiveInstance active)
        (if negb (TerminalTabList.preserveFocus e)
         then presentT "instance" instance (fun focused =>
                Call (InstanceFocusWhenReady focused) (awaitVoid Resolved))
         else Resolved)).

(** *** [TerminalTabsRenderer] *)

Definition shouldHideText (_container : option HTMLElement) : Completion bool :=
  if isAbsent _container then Normal false
  else
    c <- present "this._container" _container ;;
    Normal (clientWidth c <? TerminalTabsListSizes.MidpointViewWidth).

Definition shouldHideActionBar (_container : option HTMLElement) : Completion bool :=
  if isAbsent _container then Normal false
  else
    c <- present "this._container" _container ;;
    Normal (clientWidth c <=? TerminalTabsListSizes.ActionbarMinimumWidth).

(** One turn of the loop over the statuses; [snd acc] is
    [template.context.hoverActions]. *)
Definition addStatus (acc : string * option (list IHoverAction)) (status : ITerminalStatus)
  : Completion (string * option (list IHoverAction)) :=
  let title' :=
    fst acc +++ TerminalTabsRenderer.newline +++ TerminalTabsRenderer.newline +++ "---"
        +++ TerminalTabsRenderer.newline +++ TerminalTabsRenderer.newline
        +++ (if isAbsent (statusIcon status) then ""
             else "$(" +++ Js.interpolate (optional (statusIcon status) iconId) +++ ") ")
        +++ Js.interpolate (Js.orElse (tooltip status) (Some (statusId status))) in
  if isAbsent (statusHoverActions status) then Normal (title', snd acc)
  else
    added <- present "status.hoverActions" (statusHoverActions status) ;;
    current <- present "template.context.hoverActions" (snd acc) ;;
    Normal (title', Some (current ++ added)).

Definition labelBody (hasText : bool) (instance : ITerminalInstance) : Completion string :=
  if negb hasText then
    let primaryStatus := primary (statusList instance) in
    showStatus <- (if isAbsent primaryStatus then Normal false
                   else
                     st <- present "primaryStatus" primaryStatus ;;
                     Normal (severityValue (severity st) >? severityValue Ignore)) ;;
    if (showStatus : bool) then
      st <- present "primaryStatus" primaryStatus ;;
      Normal ("$(" +++ Js.interpolate (Js.orElse (optional (statusIcon st) iconId)
                                                 (optional (icon instance) iconId))
                   +++ ")")
    else Normal ("$(" +++ Js.interpolate (optional (icon instance) iconId) +++ ")")
  else
    Normal ("$(" +++ Js.interpolate (optional (icon instance) iconId) +++ ")"
                 +++ (if isAbsent (icon instance) then "" else " " +++ title instance)).

(** [instance?.icon?.color?.id || '']. *)
Definition codiconColor (instance : ITerminalInstance) : string :=
  Js.interpolate
    (Js.orElse (match optional (icon instance) iconColor with
                | Some (Some c) => Some (colorId c)
                | _ => None
                end)
               (Some EmptyString)).

Definition renderElement (_container : option HTMLElement)
           (getGroupForInstance : ITerminalInstance -> option ITerminalGroup)
           (localize : string -> string -> list LocalizeArg -> string)
           (lookupKeybinding : TerminalCommandId.t -> option string)
           (instance : ITerminalInstance) (index : Z)
           (template : ITerminalTabEntryTemplate)
  : Completion ITerminalTabEntryTemplate :=
  let group := getGroupForInstance instance in
  if isAbsent group then
    Throw (MkError ("Could not find group for instance " +++ Js.quote
                      +++ Js.numberToString (instanceId instance) +++ Js.quote))
  else
    hideText <- shouldHideText _container ;;
    let hasText := negb hideText in
    members <- present "group" group ;;
    let prefix := TerminalTabsRenderer.splitPrefix members instance in
    hover <- foldM addStatus (statuses (statusList instance)) (title instance, Some []) ;;
    hideBar <- shouldHideActionBar _container ;;
    let hasActionbar := negb hideBar in
    body <- labelBody hasText instance ;;
    let template1 :=
      if hasText
      then TerminalTabsRenderer.fillActionBar localize lookupKeybinding instance template
      else template in
    let codicon := TerminalTabsRenderer.querySelectorCodicon template1 in
    colour <- (if isAbsent codicon then Normal None
               else
                 _ <- present "codicon" codicon ;;
                 Normal (Some (codiconColor instance))) ;;
    let store :=
      if isAbsent (elementDispoables template1) then Some []
      else elementDispoables template1 in
    listeners <- present "template.elementDispoables" store ;;
    Normal
      {| hasTextClass := hasText;
         codicon := colour;
         label :=
           Some {| labelResource := resource instance;
                   labelName := prefix +++ body;
                   labelDescription :=
                     if hasText then description (shellLaunchConfig instance) else None;
                   decorationColors := true;
                   decorationBadges := hasText;
                   titleMarkdown := fst hover;
                   extraClasses :=
                     if Js.truthyOpt (color instance)
                     then Some ["terminal-icon-" +++ Js.interpolate (color instance)]
                     else None |};
         actionBar := if hasActionbar then actionBar template1 else [];
         hoverActions := snd hover;
         elementDispoables := Some (listeners ++ [instance]) |}.

(** [templateData.elementDispoables?.dispose()], then the field is reset. *)
Definition disposeElement (instance : ITerminalInstance) (index : Z)
           (templateData : ITerminalTabEntryTemplate)
  : Completion ITerminalTabEntryTemplate :=
  let disposed := optional (elementDispoables templateData) (fun _ => tt) in
  Normal {| hasTextClass := hasTextClass templateData;
            codicon := codicon templateData;
            label := label templateData;
            actionBar := actionBar templateData;
            hoverActions := hoverActions templateData;
            elementDispoables := None |}.

Definition _runForSelectionOrInstance (_getSelection : list (option ITerminalInstance))
           (lastFocusedList : bool) (instance : ITerminalInstance)
           (callback : ITerminalInstance -> ServiceCall) : Completion (list ServiceCall) :=
  let selection := _getSelection in
  ran <- (if Js.includes sameTarget selection (Some instance)
          then foldM (fun done s =>
                        if isAbsent s then Normal done
                        else
                          selected <- present "s" s ;;
                          Normal (done ++ [callback selected]))
                     selection []
          else Normal [callback instance]) ;;
  Normal (ran ++ [FocusTabs] ++ (if lastFocusedList then [ListFocusNext] else [])).

Definition runAction (_getSelection : list (option ITerminalInstance))
           (lastFocusedList : bool) (a : ActionRun) : Completion (list ServiceCall) :=
  match a with
  | RunSplit i => _runForSelectionOrInstance _getSelection lastFocusedList i SplitInstance
  | RunKill i => _runForSelectionOrInstance _getSelection lastFocusedList i InstanceDispose
  end.

(** *** [TerminalTabsAccessibilityProvider] *)

Definition getAriaLabel (getGroupForInstance : ITerminalInstance -> option ITerminalGroup)
           (localize : string -> string -> list LocalizeArg -> string)
           (instance : ITerminalInstance) : Completion string :=
  let tab := getGroupForInstance instance in
  split <- (if isAbsent tab then Normal false
            else
              t <- present "tab" tab ;;
              Normal (Js.length (terminalInstances t) >? 1)) ;;
  if (split : bool) then
    t <- present "tab" tab ;;
    Normal (TerminalTabsAccessibilityProvider.splitLabel localize instance t)
  else Normal (TerminalTabsAccessibilityProvider.plainLabel localize instance).

(** *** [TerminalTabsDragAndDrop] *)

Definition onDragOver (data : IDragAndDropData)
           (targetInstance : option ITerminalInstance)
           (targetIndex : option Z) (originalEvent : DragEvent)
           (s : State) : Completion (bool * State) :=
  let result := true in
  let didChangeAutoFocusInstance := negb (sameTarget (_autoFocusInstance s) targetInstance) in
  let s1 :=
    if didChangeAutoFocusInstance
    then setAutoFocusInstance targetInstance (dispose (_autoFocusDisposable s) s)
    else s in
  if isAbsent targetInstance then Normal (result, s1)
  else
    let isExternalDragOver := negb (isElementsData data) in
    if didChangeAutoFocusInstance && isExternalDragOver then
      target <- present "targetInstance" targetInstance ;;
      Normal (result, disposableTimeout target s1)
    else Normal (result, s1).

Definition droppedPath (RESOURCES : string) (resourcesFsPath : string -> Completion string)
           (fileFsPath : string -> string) (transfer : DataTransfer)
  : Completion (option string) :=
  let resources := getData transfer RESOURCES in
  if Js.truthy resources then
    p <- resourcesFsPath resources ;;
    Normal (Some p)
  else
    hasFilePath <- (if Js.length (files transfer) >? 0 then
                      first <- present "files[0]" (hd_error (files transfer)) ;;
                      Normal (Js.truthyOpt (path first))
                    else Normal false) ;;
    if (hasFilePath : bool) then
      first <- present "files[0]" (hd_error (files transfer)) ;;
      p <- present "files[0].path" (path first) ;;
      Normal (Some (fileFsPath p))
    else Normal None.

Definition _handleExternalDrop (RESOURCES : string)
           (resourcesFsPath : string -> Completion string)
           (fileFsPath : string -> string)
           (instance : option ITerminalInstance) (e : DragEvent) : Task :=
  if isAbsent instance || isAbsent (dataTransfer e) then Resolved
  else
    presentT "e.dataTransfer" (dataTransfer e) (fun transfer =>
      lift (droppedPath RESOURCES resourcesFsPath fileFsPath transfer) (fun path =>
        if negb (Js.truthyOpt path) then Resolved
        else
          presentT "path" path (fun p =>
            presentT "instance" instance (fun target =>
              Call (SetActiveInstance target)
                (Call (PreparePathForTerminalAsync
                         p (executable (shellLaunchConfig target))
                         (title target) (shellType target) (isRemote target))
                   (await (fun preparedPath =>
                      Call (InstanceSendText target preparedPath false)
                        (Call (InstanceFocus target None) Resolved)))))))).

Definition drop (RESOURCES : string) (resourcesFsPath : string -> Completion string)
           (fileFsPath : string -> string)
           (data : IDragAndDropData) (targetInstance : option ITerminalInstance)
           (targetIndex : option Z) (originalEvent : DragEvent)
           (s : State) : Completion (State * Task) :=
  let s1 := setAutoFocusInstance None (dispose (_autoFocusDisposable s) s) in
  let isExternalDrop := negb (isElementsData data) in
  if isExternalDrop then
    let '(cs, pending) :=
      runSync (_handleExternalDrop RESOURCES resourcesFsPath fileFsPath
                                   targetInstance originalEvent) in
    Normal (record cs s1, pending)
  else Normal (s1, Resolved).

(** *** Invoking an entry point *)

Definition invoke (ep : Component.EntryPoint) : Completion Component.Outcome :=
  match ep with
  | Component.GetHeight => Normal (Component.Number (Some TerminalTabList.getHeight))
  | Component.GetTemplateId => Normal (Component.Text (Some TerminalTabList.getTemplateId))
  | Component.GetId e =>
      n <- getId e ;; Normal (Component.Number n)
  | Component.Render length instances =>
      Normal (Component.Calls (TerminalTabList.render length instances))
  | Component.OnActiveInstanceChanged instances e =>
      cs <- onActiveInstanceChanged instances e ;; Normal (Component.Calls cs)
  | Component.OnMouseDblClick getFocus created =>
      Normal (Component.started (TerminalTabList.onMouseDblClick getFocus created))
  | Component.OnMouseClick focusMode getSelection e =>
      cs <- onMouseClick focusMode getSelection e ;; Normal (Component.Calls cs)
  | Component.OnContextMenu getSelectedElements e =>
      cs <- onContextMenu getSelectedElements e ;; Normal (Component.Calls cs)
  | Component.OnDidChange elements =>
      Normal (Component.Calls (TerminalTabList.onDidChange elements))
  | Component.OnDidOpen e => Normal (Component.started (onDidOpen e))
  | Component.ShouldHideText container =>
      b <- shouldHideText container ;; Normal (Component.Flag b)
  | Component.ShouldHideActionBar container =>
      b <- shouldHideActionBar container ;; Normal (Component.Flag b)
  | Component.RenderElement container getGroupForInstance localize lookupKeybinding
                            instance index template =>
      t <- renderElement container getGroupForInstance localize lookupKeybinding
                         instance index template ;;
      Normal (Component.Rendered t)
  | Component.OnAuxClick instance button =>
      Normal (Component.Calls (TerminalTabsRenderer.onAuxClick instance button))
  | Component.DisposeElement instance index template =>
      t <- disposeElement instance index template ;; Normal (Component.Rendered t)
  | Component.FillActionBar localize lookupKeybinding instance template =>
      Normal (Component.Rendered
                (TerminalTabsRenderer.fillActionBar localize lookupKeybinding
                                                    instance template))
  | Component.RunAction getSelection lastFocusedList a =>
      cs <- runAction getSelection lastFocusedList a ;; Normal (Component.Calls cs)
  | Component.GetWidgetAriaLabel localize =>
      Normal (Component.Text
                (Some (TerminalTabsAccessibilityProvider.getWidgetAriaLabel localize)))
  | Component.GetAriaLabel getGroupForInstance localize instance =>
      l <- getAriaLabel getGroupForInstance localize instance ;;
      Normal (Component.Text (Some l))
  | Component.GetDragURI instance => Normal (Component.Text (getDragURI instance))
  | Component.OnDragOver data targetInstance targetIndex originalEvent s =>
      r <- onDragOver data targetInstance targetIndex originalEvent s ;;
      Normal (Component.DraggedOver (fst r) (snd r))
  | Component.AutoFocusTimeout s tm => Normal (Component.Ran (autoFocusCallback s tm))
  | Component.Drop RESOURCES resourcesFsPath fileFsPath data targetInstance targetIndex
                   originalEvent s =>
      r <- drop RESOURCES resourcesFsPath fileFsPath data targetInstance targetIndex
                originalEvent s ;;
      Normal (Component.Dropped (fst r) (snd r))
  end.

End Strict.

(** ** The label of a row, in the words of the specification *)

(** The icon that a row without text shows: that of the primary status when
    there is one above [Ignore] whose icon has an id, and that of the
    instance in every other case. *)
Definition shownIconId (instance : ITerminalInstance) : option string :=
  match primary (statusList instance) with
  | Some st =>
      match severity st, statusIcon st with
      | Ignore, _ => option_map iconId (icon instance)
      | _, Some i => if Js.truthy (iconId i) then Some (iconId i)
                     else option_map iconId (icon instance)
      | _, None => option_map iconId (icon instance)
      end
  | None => option_map iconId (icon instance)
  end.


(** ** The auto-focus timer

    At most one timer is pending; when one is, [_autoFocusDisposable] is its
    handle and [_autoFocusInstance] the row it will activate. *)

Definition singleTimer (s : TerminalTabsDragAndDrop.State) : bool :=
  match TerminalTabsDragAndDrop.timers s with
  | [] => true
  | [tm] =>
      match TerminalTabsDragAndDrop._autoFocusDisposable s with
      | TerminalTabsDragAndDrop.TimeoutDisposable id =>
          Nat.eqb id (TerminalTabsDragAndDrop.timerId tm)
      | TerminalTabsDragAndDrop.DisposableNone => false
      end
      && sameTarget (TerminalTabsDragAndDrop._autoFocusInstance s)
                    (Some (TerminalTabsDragAndDrop.callbackTarget tm))
  | _ => false
  end.

(** No pending timer would activate [i]. *)
Definition notArmedFor (i : ITerminalInstance) (s : TerminalTabsDragAndDrop.State) : bool :=
  forallb (fun tm => negb (sameInstance i (TerminalTabsDragAndDrop.callbackTarget tm)))
          (TerminalTabsDragAndDrop.timers s).

(** The one pending timer will activate [i] at time [d]. *)
Definition armedFor (i : ITerminalInstance) (d : Z) (s : TerminalTabsDragAndDrop.State) : Prop :=
  exists id,
    TerminalTabsDragAndDrop.timers s
    = [ {| TerminalTabsDragAndDrop.timerId := id;
           TerminalTabsDragAndDrop.due := d;
           TerminalTabsDragAndDrop.callbackTarget := i |} ]
    /\ TerminalTabsDragAndDrop._autoFocusDisposable s
       = TerminalTabsDragAndDrop.TimeoutDisposable id
    /\ sameTarget (TerminalTabsDragAndDrop._autoFocusInstance s) (Some i) = true.

(** An external drag held over [i]: drag-over events on [i] at the times [ts]. *)
Definition holdOver (i : ITerminalInstance) (ts : list Z)
  : list TerminalTabsDragAndDrop.DragOverEvent :=
  map (fun t => TerminalTabsDragAndDrop.externalOver t i) ts.

(** ** Templates and their listeners *)

(** [renderTemplate]: a new row, with an empty action bar, no resource on
    its label yet, [context] without hover actions and no listeners. *)
Definition renderTemplate : ITerminalTabEntryTemplate :=
  {| hasTextClass := false;
     codicon := None;
     label := None;
     actionBar := [];
     hoverActions := None;
     elementDispoables := None |}.

(** An [auxclick] on the element of a row: every listener that
    [renderElement] added and [disposeElement] has not removed runs. *)
Definition auxClick (template : ITerminalTabEntryTemplate) (button : Z) : list ServiceCall :=
  match elementDispoables template with
  | Some listeners =>
      flat_map (fun i => TerminalTabsRenderer.onAuxClick i button) listeners
  | None => []
  end.

(** What one status adds to the hover text of a row, and to its actions. *)
Definition statusSection (status : ITerminalStatus) : string :=
  fst (TerminalTabsRenderer.addStatus (EmptyString, []) status).

Definition statusActions (status : ITerminalStatus) : list IHoverAction :=
  match statusHoverActions status with
  | Some hs => hs
  | None => []
  end.

Definition joinAll (parts : list string) : string :=
  fold_right String.append EmptyString parts.

(** The two items of a row's action bar, as [fillActionBar] builds them. *)
Definition splitItem (localize : string -> string -> list LocalizeArg -> string)
           (lookupKeybinding : TerminalCommandId.t -> option string)
           (instance : ITerminalInstance) : ActionBarItem :=
  {| itemAction := {| actionId := TerminalCommandId.SplitInstance;
                      actionLabel := localize "terminal.split" "Split" [];
                      actionClass := Codicon.splitHorizontal;
                      actionEnabled := true;
                      actionRun := RunSplit instance |};
     itemIcon := true;
     itemLabel := false;
     itemKeybinding := lookupKeybinding TerminalCommandId.SplitInstance |}.

Definition killItem (localize : string -> string -> list LocalizeArg -> string)
           (lookupKeybinding : TerminalCommandId.t -> option string)
           (instance : ITerminalInstance) : ActionBarItem :=
  {| itemAction := {| actionId := TerminalCommandId.KillInstance;
                      actionLabel := localize "terminal.kill" "Kill" [];
                      actionClass := Codicon.trashcan;
                      actionEnabled := true;
                      actionRun := RunKill instance |};
     itemIcon := true;
     itemLabel := false;
     itemKeybinding := lookupKeybinding TerminalCommandId.KillInstance |}.

(** ** Runs of the drag-and-drop handler

    The states a handler can be in: it starts [initial]; time passes, drag-over
    events and drops arrive, and calls are made by the tasks that drops
    started and by the rest of the workbench. *)
Inductive reachable : TerminalTabsDragAndDrop.State -> Prop :=
| reach_initial : reachable TerminalTabsDragAndDrop.initial
| reach_advance (t : Z) (s : TerminalTabsDragAndDrop.State) :
    reachable s -> reachable (TerminalTabsDragAndDrop.advance t s)
| reach_dragOver (data : TerminalTabsDragAndDrop.IDragAndDropData)
    (targetInstance : option ITerminalInstance) (targetIndex : option Z)
    (event : TerminalTabsDragAndDrop.DragEvent) (s : TerminalTabsDragAndDrop.State) :
    reachable s ->
    reachable (snd (TerminalTabsDragAndDrop.onDragOver data targetInstance targetIndex
                                                       event s))
| reach_drop (RESOURCES : string) (resourcesFsPath : string -> Completion string)
    (fileFsPath : string -> string)
    (data : TerminalTabsDragAndDrop.IDragAndDropData)
    (targetInstance : option ITerminalInstance) (targetIndex : option Z)
    (event : TerminalTabsDragAndDrop.DragEvent) (s : TerminalTabsDragAndDrop.State) :
    reachable s ->
    reachable (fst (TerminalTabsDragAndDrop.drop RESOURCES resourcesFsPath fileFsPath data
                                                 targetInstance targetIndex event s))
| reach_record (cs : list ServiceCall) (s : TerminalTabsDragAndDrop.State) :
    reachable s -> reachable (TerminalTabsDragAndDrop.record cs s).

(** A drag-over event that cannot arm a timer for [i]: it drags rows of a
    list, or it is not on [i]. *)
Definition sparesRow (i : ITerminalInstance) (e : TerminalTabsDragAndDrop.DragOverEvent) : bool :=
  TerminalTabsDragAndDrop.isElementsData (TerminalTabsDragAndDrop.eventData e)
  || negb (sameTarget (TerminalTabsDragAndDrop.eventTarget e) (Some i)).

(** A drag-over event away from every row. *)
Definition overNothing (t : Z) (data : TerminalTabsDragAndDrop.IDragAndDropData)
  : TerminalTabsDragAndDrop.DragOverEvent :=
  {| TerminalTabsDragAndDrop.eventTime := t;
     TerminalTabsDragAndDrop.eventData := data;
     TerminalTabsDragAndDrop.eventTarget := None |}.

(** The selected rows that hold an instance. *)
Definition presentRows (selection : list (option ITerminalInstance)) : list ITerminalInstance :=
  flat_map (fun s => match s with
                     | Some i => [i]
                     | None => []
                     end) selection.

(** * Properties *)

(** ** Positions in a group *)

Lemma sameInstance_refl (i : ITerminalInstance) : sameInstance i i = true.
Proof. unfold sameInstance. apply Nat.eqb_refl. Qed.

(** In a list of distinct objects, [indexOf] finds each member where it is. *)
Lemma indexOfFrom_member (members : list ITerminalInstance) :
  forall (k : nat) (instance : ITerminalInstance) (from : Z),
    NoDup (map ref members) ->
    nth_error members k = Some instance ->
    Js.indexOfFrom sameInstance members instance from = from + Z.of_nat k.
Proof.
  induction members as [| m ms IH]; intros k instance from Hnd Hk.
  - destruct k; discriminate.
  - destruct k as [| k]; simpl in *.
    + injection Hk as ->. rewrite sameInstance_refl. lia.
    + inversion Hnd as [| r rs Hnotin Hnd' ]; subst.
      assert (Hdiff : sameInstance m instance = false).
      { unfold sameInstance. apply Nat.eqb_neq. intros Heq.
        apply Hnotin. rewrite Heq. apply in_map.
        eapply nth_error_In; eassumption. }
      rewrite Hdiff, (IH k instance (from + 1) Hnd' Hk). lia.
Qed.

Lemma indexOf_member (members : list ITerminalInstance) (k : nat)
      (instance : ITerminalInstance) :
  NoDup (map ref members) ->
  nth_error members k = Some instance ->
  Js.indexOf sameInstance members instance = Z.of_nat k.
Proof.
  intros Hnd Hk. unfold Js.indexOf.
  rewrite (indexOfFrom_member members k instance 0 Hnd Hk). lia.
Qed.

(** ** The renderer *)

Import TerminalTabsRenderer.

(** [splitPrefix] reads nothing of the instance but its index. *)
Lemma splitPrefix_of_index (group : ITerminalGroup) (instance : ITerminalInstance) (k : nat) :
  Js.indexOf sameInstance (terminalInstances group) instance = Z.of_nat k ->
  splitPrefix group instance = markerAt (List.length (terminalInstances group)) k.
Proof.
  intros Hk. unfold splitPrefix, markerAt, Js.length. rewrite Hk.
  set (n := List.length (terminalInstances group)).
  destruct (Nat.leb_spec n 1) as [Hle | Hgt].
  - destruct (Z.gtb_spec (Z.of_nat n) 1); [lia | reflexivity].
  - destruct (Z.gtb_spec (Z.of_nat n) 1); [| lia].
    destruct (Nat.eqb_spec k 0) as [-> | Hk0]; [reflexivity |].
    destruct (Z.eqb_spec (Z.of_nat k) 0); [lia |].
    destruct (Nat.eqb_spec k (n - 1)) as [Hlast | Hmid].
    + destruct (Z.eqb_spec (Z.of_nat k) (Z.of_nat n - 1)); [reflexivity | lia].
    + destruct (Z.eqb_spec (Z.of_nat k) (Z.of_nat n - 1)); [lia | reflexivity].
Qed.

(** With a group, [renderElement] returns, and the name it gives the label
    is the marker followed by a text that does not look at the group. *)
Lemma renderElement_with_group
      (container : option HTMLElement)
      (getGroupForInstance : ITerminalInstance -> option ITerminalGroup)
      (localize : string -> string -> list LocalizeArg -> string)
      (lookupKeybinding : TerminalCommandId.t -> option string)
      (instance : ITerminalInstance) (index : Z)
      (template : ITerminalTabEntryTemplate) (group : ITerminalGroup) :
  getGroupForInstance instance = Some group ->
  exists rendered l,
    renderElement container getGroupForInstance localize lookupKeybinding
                  instance index template = Normal rendered
    /\ label rendered = Some l
    /\ labelName l = splitPrefix group instance
                       +++ labelBody (negb (shouldHideText container)) instance
    /\ hasTextClass rendered = negb (shouldHideText container)
    /\ actionBar rendered =
         if negb (shouldHideActionBar container)
         then actionBar (if negb (shouldHideText container)
                         then fillActionBar localize lookupKeybinding instance template
                         else template)
         else [].
Proof.
  intros Hg. unfold renderElement. rewrite Hg.
  destruct (fold_left addStatus (statuses (statusList instance)) (title instance, []))
    as [t hs].
  eexists. eexists. split; [reflexivity |].
  simpl. repeat split; reflexivity.
Qed.

Lemma fillActionBar_not_empty
      (localize : string -> string -> list LocalizeArg -> string)
      (lookupKeybinding : TerminalCommandId.t -> option string)
      (instance : ITerminalInstance) (template : ITerminalTabEntryTemplate) :
  actionBar (fillActionBar localize lookupKeybinding instance template) <> [].
Proof. simpl. discriminate. Qed.

(** C5. Whether the action bar is hidden depends on the width of the
    container alone: [shouldHideActionBar] answers yes exactly when the width
    is at most [ActionbarMinimumWidth], which is 105, and the bar that
    [renderElement] leaves on a row is empty exactly then, whichever
    instance is rendered into whichever template. *)
Theorem action_bar_hidden_iff_width_at_most_105
        (container : HTMLElement)
        (getGroupForInstance : ITerminalInstance -> option ITerminalGroup)
        (localize : string -> string -> list LocalizeArg -> string)
        (lookupKeybinding : TerminalCommandId.t -> option string)
        (instance : ITerminalInstance) (index : Z)
        (template : ITerminalTabEntryTemplate) (group : ITerminalGroup) :
  getGroupForInstance instance = Some group ->
  TerminalTabsListSizes.ActionbarMinimumWidth = 105
  /\ (shouldHideActionBar (Some container) = true <-> clientWidth container <= 105)
  /\ exists rendered,
      renderElement (Some container) getGroupForInstance localize lookupKeybinding
                    instance index template = Normal rendered
      /\ (actionBar rendered = [] <-> clientWidth container <= 105).
Proof.
  intros Hg.
  assert (Hhide : shouldHideActionBar (Some container) = true <-> clientWidth container <= 105).
  { unfold shouldHideActionBar, TerminalTabsListSizes.ActionbarMinimumWidth.
    apply Z.leb_le. }
  split; [reflexivity |]. split; [exact Hhide |].
  destruct (renderElement_with_group (Some container) getGroupForInstance localize
              lookupKeybinding instance index template group Hg)
    as (rendered & l & Hr & _ & _ & _ & Hbar).
  exists rendered. split; [exact Hr |].
  rewrite Hbar. split.
  - intros Hempty.
    destruct (shouldHideActionBar (Some container)) eqn:Hs; [now apply Hhide |].
    destruct (shouldHideText (Some container)) eqn:Ht; cbn [negb] in Hempty.
    + unfold shouldHideText in Ht. unfold shouldHideActionBar in Hs.
      change TerminalTabsListSizes.MidpointViewWidth with 63 in Ht.
      change TerminalTabsListSizes.ActionbarMinimumWidth with 105 in Hs.
      apply Z.ltb_lt in Ht. apply Z.leb_gt in Hs. lia.
    + now apply fillActionBar_not_empty in Hempty.
  - intros Hw. apply Hhide in Hw. now rewrite Hw.
Qed.

Lemma action_bar_hidden_witness :
  Samples.inSplit3 Samples.zsh = Some Samples.split3
  /\ TerminalTabsListSizes.ActionbarMinimumWidth = 105
  /\ (shouldHideActionBar (Some Samples.narrow) = true <-> clientWidth Samples.narrow <= 105)
  /\ exists rendered,
      renderElement (Some Samples.narrow) Samples.inSplit3 Nls.localize Samples.noKeybinding
                    Samples.zsh 1 Samples.emptyTemplate = Normal rendered
      /\ (actionBar rendered = [] <-> clientWidth Samples.narrow <= 105).
Proof.
  split; [reflexivity |].
  apply (action_bar_hidden_iff_width_at_most_105
           Samples.narrow Samples.inSplit3 Nls.localize Samples.noKeybinding
           Samples.zsh 1 Samples.emptyTemplate Samples.split3).
  reflexivity.
Defined.





(** C4. For an instance that is the member at position [k] of its group,
    the marker that starts the row's label is a function of [k] and of the
    size of the group alone: in a group of more than one member the first
    member gets the top marker, the last the bottom marker and every other
    member the middle marker; in a group of one member there is no marker. *)
Theorem split_prefix_by_position
        (container : option HTMLElement)
        (getGroupForInstance : ITerminalInstance -> option ITerminalGroup)
        (localize : string -> string -> list LocalizeArg -> string)
        (lookupKeybinding : TerminalCommandId.t -> option string)
        (instance : ITerminalInstance) (index : Z)
        (template : ITerminalTabEntryTemplate) (group : ITerminalGroup) (k : nat) :
  getGroupForInstance instance = Some group ->
  NoDup (map ref (terminalInstances group)) ->
  nth_error (terminalInstances group) k = Some instance ->
  let size := List.length (terminalInstances group) in
  splitPrefix group instance = markerAt size k
  /\ (exists rendered l,
      renderElement container getGroupForInstance localize lookupKeybinding
                    instance index template = Normal rendered
      /\ label rendered = Some l
      /\ labelName l = markerAt size k +++ labelBody (negb (shouldHideText container)) instance)
  /\ ((1 < size)%nat -> k = 0%nat -> markerAt size k = "┌ ")
  /\ ((1 < size)%nat -> k = (size - 1)%nat -> markerAt size k = "└ ")
  /\ ((1 < size)%nat -> (0 < k < size - 1)%nat -> markerAt size k = "├ ")
  /\ (size = 1%nat -> markerAt size k = "").
Proof.
  intros Hg Hnd Hk size.
  pose proof (splitPrefix_of_index group instance k
                (indexOf_member _ _ _ Hnd Hk)) as Hprefix.
  fold size in Hprefix.
  split; [exact Hprefix |]. split.
  { destruct (renderElement_with_group container getGroupForInstance localize
                lookupKeybinding instance index template group Hg)
      as (rendered & l & Hr & Hl & Hname & _).
    exists rendered, l. rewrite <- Hprefix. auto. }
  unfold markerAt. repeat split.
  - intros Hs ->. destruct (Nat.leb_spec size 1); [lia | reflexivity].
  - intros Hs ->. destruct (Nat.leb_spec size 1); [lia |].
    destruct (Nat.eqb_spec (size - 1) 0); [lia |].
    now rewrite Nat.eqb_refl.
  - intros Hs [Hlo Hhi]. destruct (Nat.leb_spec size 1); [lia |].
    destruct (Nat.eqb_spec k 0); [lia |].
    destruct (Nat.eqb_spec k (size - 1)); [lia | reflexivity].
  - intros ->. reflexivity.
Qed.

Lemma split_prefix_witness :
  Samples.inSplit3 Samples.fish = Some Samples.split3
  /\ NoDup (map ref (terminalInstances Samples.split3))
  /\ nth_error (terminalInstances Samples.split3) 2 = Some Samples.fish
  /\ exists rendered l,
      renderElement (Some Samples.wide) Samples.inSplit3 Nls.localize Samples.noKeybinding
                    Samples.fish 2 Samples.emptyTemplate = Normal rendered
      /\ label rendered = Some l
      /\ labelName l = "└ " +++ "$(terminal) fish".
Proof.
  assert (Hnd : NoDup (map ref (terminalInstances Samples.split3))).
  { simpl. repeat constructor; simpl; intuition discriminate. }
  split; [reflexivity |]. split; [exact Hnd |]. split; [reflexivity |].
  exact (proj1 (proj2 (split_prefix_by_position
                         (Some Samples.wide) Samples.inSplit3 Nls.localize
                         Samples.noKeybinding
                         Samples.fish 2 Samples.emptyTemplate Samples.split3 2
                         eq_refl Hnd eq_refl))).
Defined.

(** ** The accessibility provider *)

(** C8. The label read for an instance that is the member at position [k]
    (from 0) of a group of more than one member is the localized text of
    [splitTerminalAriaLabel] filled with the instance's id, its title, its
    position [k + 1] and the size of the group; for an instance without a
    group, or in a group of one member, it is the localized text of
    [terminalAriaLabel] filled with the id and the title alone. *)
Theorem aria_label_by_group
        (getGroupForInstance : ITerminalInstance -> option ITerminalGroup)
        (localize : string -> string -> list LocalizeArg -> string)
        (instance : ITerminalInstance) :
  (forall (tab : ITerminalGroup) (k : nat),
      getGroupForInstance instance = Some tab ->
      NoDup (map ref (terminalInstances tab)) ->
      nth_error (terminalInstances tab) k = Some instance ->
      (1 < List.length (terminalInstances tab))%nat ->
      TerminalTabsAccessibilityProvider.getAriaLabel getGroupForInstance localize instance
      = localize "splitTerminalAriaLabel" "Terminal {0} {1}, split {2} of {3}"
                 [ArgNumber (instanceId instance); ArgString (title instance);
                  ArgNumber (Z.of_nat k + 1);
                  ArgNumber (Z.of_nat (List.length (terminalInstances tab)))])
  /\ ((getGroupForInstance instance = None
       \/ exists tab, getGroupForInstance instance = Some tab
                      /\ (List.length (terminalInstances tab) <= 1)%nat) ->
      TerminalTabsAccessibilityProvider.getAriaLabel getGroupForInstance localize instance
      = localize "terminalAriaLabel" "Terminal {0} {1}"
                 [ArgNumber (instanceId instance); ArgString (title instance)]).
Proof.
  unfold TerminalTabsAccessibilityProvider.getAriaLabel. split.
  - intros tab k Hg Hnd Hk Hsize. rewrite Hg.
    unfold Js.length.
    destruct (Z.gtb_spec (Z.of_nat (List.length (terminalInstances tab))) 1); [| lia].
    unfold TerminalTabsAccessibilityProvider.splitLabel, Js.length.
    now rewrite (indexOf_member _ _ _ Hnd Hk).
  - intros [Hg | (tab & Hg & Hsize)]; rewrite Hg; [reflexivity |].
    unfold Js.length.
    destruct (Z.gtb_spec (Z.of_nat (List.length (terminalInstances tab))) 1);
      [lia | reflexivity].
Qed.

Lemma aria_label_witness :
  TerminalTabsAccessibilityProvider.getAriaLabel Samples.inSplit3 Nls.localize Samples.zsh
  = "Terminal 2 zsh, split 2 of 3"
  /\ TerminalTabsAccessibilityProvider.getAriaLabel Samples.noGroup Nls.localize Samples.zsh
     = "Terminal 2 zsh".
Proof.
  split.
  - rewrite (proj1 (aria_label_by_group Samples.inSplit3 Nls.localize Samples.zsh)
               Samples.split3 1%nat eq_refl).
    + reflexivity.
    + simpl. repeat constructor; simpl; intuition discriminate.
    + reflexivity.
    + simpl. lia.
  - rewrite (proj2 (aria_label_by_group Samples.noGroup Nls.localize Samples.zsh)).
    + reflexivity.
    + left. reflexivity.
Defined.

(** ** Clicks *)

(** C7, as the code has it. With the focus mode [singleClick], a click on a
    row without the Alt key focuses the clicked instance if and only if at
    most one row is selected, and calls nothing else. *)
Theorem single_click_focuses_unless_multiselect
        (getSelection : list Z) (e : TerminalTabList.IListMouseEvent)
        (el : ITerminalInstance) :
  TerminalTabList.element e = Some el ->
  TerminalTabList.altKey e = false ->
  TerminalTabList.onMouseClick "singleClick" getSelection e
  = (if Js.length getSelection <=? 1 then [InstanceFocus el (Some true)] else [])
  /\ (In (InstanceFocus el (Some true))
         (TerminalTabList.onMouseClick "singleClick" getSelection e)
      <-> (List.length getSelection <= 1)%nat).
Proof.
  intros Hel Halt.
  assert (Hcalls : TerminalTabList.onMouseClick "singleClick" getSelection e
                   = (if Js.length getSelection <=? 1
                      then [InstanceFocus el (Some true)] else [])).
  { unfold TerminalTabList.onMouseClick. rewrite Hel, Halt. reflexivity. }
  split; [exact Hcalls |].
  rewrite Hcalls. unfold Js.length.
  destruct (Z.leb_spec (Z.of_nat (List.length getSelection)) 1); simpl; split.
  - lia.
  - now left.
  - intros [].
  - lia.
Qed.

Lemma single_click_witness :
  TerminalTabList.onMouseClick "singleClick" [1]
    {| TerminalTabList.altKey := false;
       TerminalTabList.element := Some Samples.zsh;
       TerminalTabList.index := Some 1 |}
  = [InstanceFocus Samples.zsh (Some true)]
  /\ TerminalTabList.onMouseClick "singleClick" [0; 1]
       {| TerminalTabList.altKey := false;
          TerminalTabList.element := Some Samples.zsh;
          TerminalTabList.index := Some 1 |}
     = [].
Proof.
  split.
  - exact (proj1 (single_click_focuses_unless_multiselect
                    [1] {| TerminalTabList.altKey := false;
                           TerminalTabList.element := Some Samples.zsh;
                           TerminalTabList.index := Some 1 |}
                    Samples.zsh eq_refl eq_refl)).
  - exact (proj1 (single_click_focuses_unless_multiselect
                    [0; 1] {| TerminalTabList.altKey := false;
                              TerminalTabList.element := Some Samples.zsh;
                              TerminalTabList.index := Some 1 |}
                    Samples.zsh eq_refl eq_refl)).
Defined.

(** C7, as stated, fails on a click with the Alt key: the focus mode is
    [singleClick] and no row is selected, yet the click splits the instance
    and does not focus it. *)
Lemma single_click_with_alt_does_not_focus :
  let e := {| TerminalTabList.altKey := true;
              TerminalTabList.element := Some Samples.zsh;
              TerminalTabList.index := Some 1 |} in
  (List.length (@nil Z) <= 1)%nat
  /\ TerminalTabList.onMouseClick "singleClick" [] e = [SplitInstance Samples.zsh]
  /\ ~ In (InstanceFocus Samples.zsh (Some true))
          (TerminalTabList.onMouseClick "singleClick" [] e).
Proof.
  simpl. repeat split.
  - lia.
  - intros [H | []]. discriminate H.
Qed.

(** C10. A click on a row with the Alt key held calls [splitInstance] on the
    clicked instance and nothing else, whatever the focus mode and the
    selection: no instance is focused by such a click. *)
Theorem alt_click_splits
        (focusMode : string) (getSelection : list Z)
        (e : TerminalTabList.IListMouseEvent) (el : ITerminalInstance) :
  TerminalTabList.element e = Some el ->
  TerminalTabList.altKey e = true ->
  TerminalTabList.onMouseClick focusMode getSelection e = [SplitInstance el]
  /\ forall i force,
      ~ In (InstanceFocus i force) (TerminalTabList.onMouseClick focusMode getSelection e).
Proof.
  intros Hel Halt.
  assert (Hcalls : TerminalTabList.onMouseClick focusMode getSelection e = [SplitInstance el]).
  { unfold TerminalTabList.onMouseClick. rewrite Hel, Halt. reflexivity. }
  split; [exact Hcalls |].
  intros i force. rewrite Hcalls. intros [H | []]. discriminate H.
Qed.

Lemma alt_click_witness :
  TerminalTabList.onMouseClick "doubleClick" [0; 2]
    {| TerminalTabList.altKey := true;
       TerminalTabList.element := Some Samples.bash;
       TerminalTabList.index := Some 0 |}
  = [SplitInstance Samples.bash].
Proof.
  exact (proj1 (alt_click_splits
                  "doubleClick" [0; 2]
                  {| TerminalTabList.altKey := true;
                     TerminalTabList.element := Some Samples.bash;
                     TerminalTabList.index := Some 0 |}
                  Samples.bash eq_refl eq_refl)).
Defined.

(** ** Drops *)

Import TerminalTabsDragAndDrop.

Lemma calls_record (cs : list ServiceCall) (s : State) :
  calls (record cs s) = calls s ++ cs.
Proof. reflexivity. Qed.

Lemma calls_dispose (d : IDisposable) (s : State) : calls (dispose d s) = calls s.
Proof. destruct d; reflexivity. Qed.

Lemma calls_setAutoFocusInstance (v : option ITerminalInstance) (s : State) :
  calls (setAutoFocusInstance v s) = calls s.
Proof. reflexivity. Qed.

(** C1. An external drop on a row whose payload has a path: when [drop]
    returns, the row has been made active and the path handed to
    [preparePathForTerminalAsync], in that order and nothing else; when the
    prepared path arrives it is sent to that row, once, and the row is
    focused; nothing is left pending. *)
Theorem external_drop_activates_then_sends_once
        (RESOURCES : string) (resourcesFsPath : string -> Completion string)
        (fileFsPath : string -> string)
        (data : IDragAndDropData) (instance : ITerminalInstance)
        (targetIndex : option Z) (transfer : DataTransfer)
        (path preparedPath : string) (s : State) :
  isElementsData data = false ->
  droppedPath RESOURCES resourcesFsPath fileFsPath transfer = Normal (Some path) ->
  Js.truthy path = true ->
  let dropped := drop RESOURCES resourcesFsPath fileFsPath data (Some instance) targetIndex
                      {| dataTransfer := Some transfer |} s in
  let done := resume (Normal preparedPath) dropped in
  let prepare := PreparePathForTerminalAsync path (executable (shellLaunchConfig instance))
                   (title instance) (shellType instance) (isRemote instance) in
  calls (fst dropped) = calls s ++ [SetActiveInstance instance; prepare]
  /\ calls (fst done)
     = calls s ++ [SetActiveInstance instance; prepare;
                   InstanceSendText instance preparedPath false;
                   InstanceFocus instance None]
  /\ snd done = Resolved
  /\ List.length (filter (isSendTextTo instance)
                         [SetActiveInstance instance; prepare;
                          InstanceSendText instance preparedPath false;
                          InstanceFocus instance None]) = 1%nat
  /\ List.length (filter (isActivationOf instance)
                         [SetActiveInstance instance; prepare;
                          InstanceSendText instance preparedPath false;
                          InstanceFocus instance None]) = 1%nat.
Proof.
  intros Hext Hpath Htruthy dropped done prepare.
  assert (Hdrop : dropped
                  = (record [SetActiveInstance instance; prepare]
                            (setAutoFocusInstance None (dispose (_autoFocusDisposable s) s)),
                     await (fun preparedPath =>
                              Call (InstanceSendText instance preparedPath false)
                                   (Call (InstanceFocus instance None) Resolved)))).
  { unfold dropped, drop, _handleExternalDrop. rewrite Hext. simpl.
    rewrite Hpath, Htruthy. reflexivity. }
  unfold done. rewrite Hdrop. simpl.
  rewrite calls_dispose, sameInstance_refl. simpl.
  repeat split; try reflexivity.
  now rewrite <- app_assoc.
Qed.

Lemma external_drop_witness :
  let dropped := drop Samples.resourcesKey Samples.readResources Samples.readFile
                      ExternalDragAndDropData (Some Samples.zsh) (Some 1)
                      {| dataTransfer := Some Samples.explorerTransfer |} initial in
  calls (fst (resume (Normal "'/home/u/a.txt'") dropped))
  = [SetActiveInstance Samples.zsh;
     PreparePathForTerminalAsync "/home/u/a.txt" (Some "/bin/sh") "zsh" None false;
     InstanceSendText Samples.zsh "'/home/u/a.txt'" false;
     InstanceFocus Samples.zsh None].
Proof.
  exact (proj1 (proj2 (external_drop_activates_then_sends_once
                         Samples.resourcesKey Samples.readResources Samples.readFile
                         ExternalDragAndDropData Samples.zsh (Some 1)
                         Samples.explorerTransfer "/home/u/a.txt" "'/home/u/a.txt'" initial
                         eq_refl eq_refl eq_refl))).
Defined.

(** C9. An external drop without a target instance, without a data
    transfer, or whose transfer has neither a resource list nor a first file
    with a path: [drop] makes no call at all, so neither
    [setActiveInstance], [preparePathForTerminalAsync], [sendText] nor
    [focus], and leaves nothing pending that could make one later. *)
Theorem external_drop_without_path_calls_nothing
        (RESOURCES : string) (resourcesFsPath : string -> Completion string)
        (fileFsPath : string -> string)
        (data : IDragAndDropData) (targetInstance : option ITerminalInstance)
        (targetIndex : option Z) (e : DragEvent) (s : State) :
  isElementsData data = false ->
  (targetInstance = None
   \/ dataTransfer e = None
   \/ exists transfer,
       dataTransfer e = Some transfer
       /\ getData transfer RESOURCES = ""
       /\ (files transfer = []
           \/ exists f rest, files transfer = f :: rest /\ Js.truthyOpt (path f) = false)) ->
  let dropped := drop RESOURCES resourcesFsPath fileFsPath data targetInstance targetIndex e s in
  calls (fst dropped) = calls s
  /\ snd dropped = Resolved
  /\ forall r, calls (fst (resume r dropped)) = calls s.
Proof.
  intros Hext Hnone dropped.
  assert (Htask : _handleExternalDrop RESOURCES resourcesFsPath fileFsPath targetInstance e
                  = Resolved).
  { unfold _handleExternalDrop.
    destruct Hnone as [-> | [He | (transfer & He & Hres & Hfiles)]].
    - reflexivity.
    - rewrite He. now destruct targetInstance.
    - rewrite He. destruct targetInstance as [instance |]; [| reflexivity].
      unfold droppedPath. rewrite Hres. simpl.
      destruct Hfiles as [-> | (f & rest & -> & Hp)]; [reflexivity |].
      destruct (path f) as [p |]; [| reflexivity].
      simpl in Hp. now rewrite Hp. }
  assert (Hdrop : dropped
                  = (record [] (setAutoFocusInstance None (dispose (_autoFocusDisposable s) s)),
                     Resolved)).
  { unfold dropped, drop. rewrite Hext, Htask. reflexivity. }
  rewrite Hdrop. unfold resume. simpl.
  rewrite calls_dispose, !app_nil_r. auto.
Qed.

Lemma external_drop_without_path_witness :
  let dropped := drop Samples.resourcesKey Samples.readResources Samples.readFile
                      ExternalDragAndDropData (Some Samples.zsh) (Some 1)
                      {| dataTransfer := Some Samples.emptyTransfer |}
                      (record [SplitInstance Samples.bash] initial) in
  calls (fst dropped) = [SplitInstance Samples.bash] /\ snd dropped = Resolved.
Proof.
  assert (Hnone : Some Samples.zsh = None
                  \/ dataTransfer {| dataTransfer := Some Samples.emptyTransfer |} = None
                  \/ exists transfer,
                      dataTransfer {| dataTransfer := Some Samples.emptyTransfer |}
                      = Some transfer
                      /\ getData transfer Samples.resourcesKey = ""
                      /\ (files transfer = []
                          \/ exists f rest, files transfer = f :: rest
                                            /\ Js.truthyOpt (path f) = false)).
  { right; right. exists Samples.emptyTransfer. repeat split. now left. }
  destruct (external_drop_without_path_calls_nothing
              Samples.resourcesKey Samples.readResources Samples.readFile
              ExternalDragAndDropData (Some Samples.zsh) (Some 1)
              {| dataTransfer := Some Samples.emptyTransfer |}
              (record [SplitInstance Samples.bash] initial) eq_refl Hnone) as (H1 & H2 & _).
  split; [exact H1 | exact H2].
Defined.

(** ** Errors *)





(** *** The guards suffice

    Each method under the rules for absent values does what its reading
    with the guards taken for granted does. *)






















(** ** The auto-focus timer *)

Lemma timers_dispose_single (s : State) :
  singleTimer s = true -> timers (dispose (_autoFocusDisposable s) s) = [].
Proof.
  destruct s as [afi afd nw tms nid cs]. unfold singleTimer. simpl.
  destruct tms as [| tm [| tm2 rest]]; try discriminate.
  - intros _. destruct afd; reflexivity.
  - destruct afd as [| id]; simpl; try discriminate.
    intros H. apply andb_true_iff in H as [Hid _].
    apply Nat.eqb_eq in Hid. subst id. now rewrite Nat.eqb_refl.
Qed.

Lemma sameInstance_sym (a b : ITerminalInstance) : sameInstance a b = sameInstance b a.
Proof. unfold sameInstance. apply Nat.eqb_sym. Qed.

Lemma sameInstance_trans_false (a b c : ITerminalInstance) :
  sameInstance a b = true -> sameInstance b c = false -> sameInstance a c = false.
Proof.
  unfold sameInstance. intros Hab Hbc.
  apply Nat.eqb_eq in Hab. now rewrite Hab.
Qed.

(** A drag-over that changes the target to a row arms one timer for it. *)
Lemma onDragOver_arms (s : State) (i : ITerminalInstance)
      (targetIndex : option Z) (event : DragEvent) :
  singleTimer s = true ->
  sameTarget (_autoFocusInstance s) (Some i) = false ->
  let s' := snd (onDragOver ExternalDragAndDropData (Some i) targetIndex event s) in
  armedFor i (now s + autoFocusDelay) s' /\ calls s' = calls s /\ now s' = now s.
Proof.
  intros Hsingle Hchange. unfold onDragOver. rewrite Hchange. simpl.
  pose proof (timers_dispose_single s Hsingle) as Hclear.
  destruct s as [afi afd nw tms nid cs]. destruct afd as [| id]; simpl in *.
  - rewrite Hclear. repeat split. exists nid. simpl.
    rewrite sameInstance_refl. auto.
  - rewrite Hclear. repeat split. exists nid. simpl.
    rewrite sameInstance_refl. auto.
Qed.

(** Before the timer is due the event loop leaves it alone. *)
Lemma advance_before_due (s : State) (i : ITerminalInstance) (d t : Z) :
  armedFor i d s -> t < d ->
  armedFor i d (advance t s)
  /\ calls (advance t s) = calls s
  /\ now (advance t s) = Z.max (now s) t
  /\ _autoFocusInstance (advance t s) = _autoFocusInstance s
  /\ nextTimerId (advance t s) = nextTimerId s.
Proof.
  intros (id & Htm & Hd & Hafi) Ht.
  destruct s as [afi afd nw tms nid cs]. simpl in *. subst tms afd.
  unfold advance, isDue. simpl.
  destruct (Z.leb_spec d t); [lia |]. simpl.
  repeat split. exists id. simpl. auto.
Qed.

(** Once it is due the timer runs: the row is activated, once. *)
Lemma advance_fires (s : State) (i : ITerminalInstance) (d t : Z) :
  armedFor i d s -> d <= t ->
  calls (advance t s) = calls s ++ [SetActiveInstance i]
  /\ timers (advance t s) = []
  /\ _autoFocusInstance (advance t s) = None
  /\ now (advance t s) = Z.max (now s) t.
Proof.
  intros (id & Htm & Hd & Hafi) Ht.
  destruct s as [afi afd nw tms nid cs]. simpl in *. subst tms afd.
  unfold advance, isDue. simpl.
  destruct (Z.leb_spec d t); [| lia]. simpl. auto.
Qed.

Lemma singleTimer_idle (s : State) : timers s = [] -> singleTimer s = true.
Proof. unfold singleTimer. now intros ->. Qed.

Lemma singleTimer_armed (s : State) (i : ITerminalInstance) (d : Z) :
  armedFor i d s -> singleTimer s = true.
Proof.
  intros (id & Htm & Hd & Hafi). unfold singleTimer. rewrite Htm, Hd. simpl.
  now rewrite Nat.eqb_refl, Hafi.
Qed.

(** A drag-over on the row the timer is armed for changes nothing. *)
Lemma deliver_same_row (s : State) (i : ITerminalInstance) (d t : Z) :
  armedFor i d s -> t < d ->
  armedFor i d (deliver s (externalOver t i))
  /\ calls (deliver s (externalOver t i)) = calls s
  /\ now (deliver s (externalOver t i)) = Z.max (now s) t.
Proof.
  intros Harm Ht.
  destruct (advance_before_due s i d t Harm Ht) as (Harm' & Hcalls & Hnow & _).
  unfold deliver, externalOver. cbn [eventData eventTarget eventTime].
  destruct Harm' as (id & Htm & Hd & Hafi).
  unfold onDragOver. rewrite Hafi. simpl.
  split; [| split; [exact Hcalls | exact Hnow]]. exists id. auto.
Qed.

(** While the drag stays on the row and the timer is not due, nothing is
    activated and the timer stays as it is. *)
Lemma deliverAll_same_row (i : ITerminalInstance) (d : Z) (ts : list Z) :
  forall s, armedFor i d s -> Forall (fun t => t < d) ts -> now s < d ->
            armedFor i d (deliverAll (holdOver i ts) s)
            /\ calls (deliverAll (holdOver i ts) s) = calls s
            /\ now (deliverAll (holdOver i ts) s) < d.
Proof.
  induction ts as [| t ts IH]; intros s Harm Hts Hnow; simpl.
  - auto.
  - inversion Hts as [| t' ts' Ht Hts']; subst.
    destruct (deliver_same_row s i d t Harm Ht) as (Harm' & Hcalls' & Hnow').
    destruct (IH (deliver s (externalOver t i)) Harm' Hts') as (Harm'' & Hcalls'' & Hnow'').
    { lia. }
    unfold deliverAll in *. simpl. rewrite <- Hcalls'. auto.
Qed.

Lemma advance_idle (t : Z) (s : State) :
  timers s = [] ->
  calls (advance t s) = calls s
  /\ timers (advance t s) = []
  /\ _autoFocusInstance (advance t s) = _autoFocusInstance s
  /\ now (advance t s) = Z.max (now s) t.
Proof.
  intros Htm. unfold advance. rewrite Htm. simpl. auto.
Qed.

(** A drag-over on another row before the timer is due replaces the timer:
    the one that is pending afterwards is for the new row. *)
Lemma deliver_other_row (s : State) (i j : ITerminalInstance) (d t : Z) :
  armedFor i d s -> t < d -> sameInstance i j = false ->
  armedFor j (Z.max (now s) t + autoFocusDelay) (deliver s (externalOver t j))
  /\ calls (deliver s (externalOver t j)) = calls s.
Proof.
  intros Harm Ht Hij.
  destruct (advance_before_due s i d t Harm Ht) as (Harm' & Hcalls & Hnow & _).
  pose proof (singleTimer_armed _ _ _ Harm') as Hsingle.
  assert (Hchange : sameTarget (_autoFocusInstance (advance t s)) (Some j) = false).
  { destruct Harm' as (id & _ & _ & Hafi).
    destruct (_autoFocusInstance (advance t s)) as [a |]; simpl in *; [| reflexivity].
    eapply sameInstance_trans_false; eassumption. }
  destruct (onDragOver_arms (advance t s) j None noEvent Hsingle Hchange) as (Ha & Hc & _).
  unfold deliver, externalOver. cbn [eventData eventTarget eventTime].
  rewrite Hnow in Ha. split; [exact Ha | congruence].
Qed.

Lemma activations_app (i : ITerminalInstance) (cs1 cs2 : list ServiceCall) :
  activations i (cs1 ++ cs2) = (activations i cs1 + activations i cs2)%nat.
Proof. unfold activations. now rewrite filter_app, length_app. Qed.

Lemma calls_fold_callbacks (due : list Timer) :
  forall s, calls (fold_left autoFocusCallback due s)
            = calls s ++ map (fun tm => SetActiveInstance (callbackTarget tm)) due.
Proof.
  induction due as [| tm due IH]; intros s; simpl.
  - now rewrite app_nil_r.
  - rewrite IH. simpl. now rewrite <- app_assoc.
Qed.

Lemma calls_advance (t : Z) (s : State) :
  calls (advance t s)
  = calls s ++ map (fun tm => SetActiveInstance (callbackTarget tm))
                   (filter (isDue t) (timers s)).
Proof. unfold advance. simpl. apply calls_fold_callbacks. Qed.

Lemma forallb_filter_sub {A : Type} (p q : A -> bool) (l : list A) :
  forallb p l = true -> forallb p (filter q l) = true.
Proof.
  rewrite !forallb_forall. intros H x Hx. apply filter_In in Hx. now apply H.
Qed.

Lemma activations_of_others (i : ITerminalInstance) (l : list Timer) :
  forallb (fun tm => negb (sameInstance i (callbackTarget tm))) l = true ->
  activations i (map (fun tm => SetActiveInstance (callbackTarget tm)) l) = 0%nat.
Proof.
  induction l as [| tm l IH]; simpl; [reflexivity |].
  intros H. apply andb_true_iff in H as [Htm Hl].
  unfold activations in *. simpl.
  apply negb_true_iff in Htm. rewrite Htm. now apply IH.
Qed.

(** The event loop never activates a row that no pending timer is for. *)
Lemma notArmedFor_advance (i : ITerminalInstance) (t : Z) (s : State) :
  notArmedFor i s = true ->
  notArmedFor i (advance t s) = true
  /\ activations i (calls (advance t s)) = activations i (calls s).
Proof.
  intros H. split.
  - unfold notArmedFor, advance. simpl. now apply forallb_filter_sub.
  - rewrite calls_advance, activations_app.
    rewrite activations_of_others; [lia |].
    now apply forallb_filter_sub.
Qed.

Lemma calls_onDragOver (data : IDragAndDropData) (targetInstance : option ITerminalInstance)
      (targetIndex : option Z) (event : DragEvent) (s : State) :
  calls (snd (onDragOver data targetInstance targetIndex event s)) = calls s.
Proof.
  unfold onDragOver.
  destruct (negb (sameTarget (_autoFocusInstance s) targetInstance));
    destruct targetInstance; destruct data; simpl;
      try reflexivity; apply calls_dispose.
Qed.

Lemma notArmedFor_dispose (i : ITerminalInstance) (d : IDisposable) (s : State) :
  notArmedFor i s = true -> notArmedFor i (dispose d s) = true.
Proof.
  destruct d; [easy |]. unfold notArmedFor. simpl. apply forallb_filter_sub.
Qed.

(** A drag-over that is not on [i] leaves no timer for [i] behind. *)
Lemma notArmedFor_onDragOver (i : ITerminalInstance) (data : IDragAndDropData)
      (targetInstance : option ITerminalInstance)
      (targetIndex : option Z) (event : DragEvent) (s : State) :
  notArmedFor i s = true ->
  sameTarget targetInstance (Some i) = false ->
  notArmedFor i (snd (onDragOver data targetInstance targetIndex event s)) = true.
Proof.
  intros Hs Htarget. unfold onDragOver.
  pose proof (notArmedFor_dispose i (_autoFocusDisposable s) s Hs) as Hd.
  destruct (negb (sameTarget (_autoFocusInstance s) targetInstance));
    destruct targetInstance as [j |]; destruct data; simpl; try assumption.
  unfold notArmedFor in *. simpl in *.
  rewrite forallb_app, Hd. simpl.
  now rewrite sameInstance_sym, Htarget.
Qed.

Lemma notArmedFor_deliver (i : ITerminalInstance) (e : DragOverEvent) (s : State) :
  notArmedFor i s = true ->
  sameTarget (eventTarget e) (Some i) = false ->
  notArmedFor i (deliver s e) = true
  /\ activations i (calls (deliver s e)) = activations i (calls s).
Proof.
  intros Hs He. destruct (notArmedFor_advance i (eventTime e) s Hs) as [Ha Hc].
  unfold deliver. split.
  - now apply notArmedFor_onDragOver.
  - now rewrite calls_onDragOver.
Qed.

Lemma notArmedFor_deliverAll (i : ITerminalInstance) (es : list DragOverEvent) :
  forall s, notArmedFor i s = true ->
            Forall (fun e => sameTarget (eventTarget e) (Some i) = false) es ->
            notArmedFor i (deliverAll es s) = true
            /\ activations i (calls (deliverAll es s)) = activations i (calls s).
Proof.
  induction es as [| e es IH]; intros s Hs Hes; [now split |].
  inversion Hes as [| e' es' He Hes']; subst.
  destruct (notArmedFor_deliver i e s Hs He) as [Hs' Hc'].
  destruct (IH _ Hs' Hes') as [Hs'' Hc''].
  unfold deliverAll in *. simpl. split; [exact Hs'' | congruence].
Qed.

Lemma notArmedFor_armed_other (i j : ITerminalInstance) (d : Z) (s : State) :
  armedFor j d s -> sameInstance i j = false -> notArmedFor i s = true.
Proof.
  intros (id & Htm & _) Hij. unfold notArmedFor. rewrite Htm. simpl. now rewrite Hij.
Qed.

(** *** One timer at most *)

Lemma singleTimer_advance (t : Z) (s : State) :
  singleTimer s = true -> singleTimer (advance t s) = true.
Proof.
  destruct s as [afi afd nw tms nid cs]. unfold singleTimer, advance. simpl.
  destruct tms as [| tm [| tm2 rest]]; try discriminate; simpl; [reflexivity |].
  destruct (isDue t tm); simpl; [reflexivity | easy].
Qed.

Lemma singleTimer_onDragOver (data : IDragAndDropData)
      (targetInstance : option ITerminalInstance)
      (targetIndex : option Z) (event : DragEvent) (s : State) :
  singleTimer s = true ->
  singleTimer (snd (onDragOver data targetInstance targetIndex event s)) = true.
Proof.
  intros Hs.
  destruct (sameTarget (_autoFocusInstance s) targetInstance) eqn:Hsame.
  - unfold onDragOver. rewrite Hsame. simpl. now destruct targetInstance.
  - destruct targetInstance as [i |]; [destruct data |].
    + unfold onDragOver. rewrite Hsame. simpl.
      apply singleTimer_idle. simpl. now apply timers_dispose_single.
    + eapply singleTimer_armed. now apply onDragOver_arms.
    + unfold onDragOver. rewrite Hsame. simpl.
      apply singleTimer_idle. simpl. now apply timers_dispose_single.
Qed.

(** Whatever drag-over events a new handler receives, it has one timer
    pending at most. *)
Lemma singleTimer_deliverAll (es : list DragOverEvent) :
  forall s, singleTimer s = true -> singleTimer (deliverAll es s) = true.
Proof.
  induction es as [| e es IH]; intros s Hs; [exact Hs |].
  unfold deliverAll in *. simpl. apply IH. unfold deliver.
  now apply singleTimer_onDragOver, singleTimer_advance.
Qed.

(** A drop leaves no timer pending. *)
Lemma timers_drop
      (RESOURCES : string) (resourcesFsPath : string -> Completion string)
      (fileFsPath : string -> string)
      (data : IDragAndDropData) (targetInstance : option ITerminalInstance)
      (targetIndex : option Z) (event : DragEvent) (s : State) :
  singleTimer s = true ->
  timers (fst (drop RESOURCES resourcesFsPath fileFsPath data targetInstance targetIndex
                    event s)) = [].
Proof.
  intros Hs. unfold drop.
  destruct (negb (isElementsData data)).
  - destruct (runSync (_handleExternalDrop RESOURCES resourcesFsPath fileFsPath
                                            targetInstance event)) as [cs pending].
    simpl. now apply timers_dispose_single.
  - simpl. now apply timers_dispose_single.
Qed.

Lemma deliverAll_app (es1 es2 : list DragOverEvent) (s : State) :
  deliverAll (es1 ++ es2) s = deliverAll es2 (deliverAll es1 s).
Proof. unfold deliverAll. apply fold_left_app. Qed.

(** C2, as the code has it. An external drag enters a row [i] that the
    handler is not already tracking. (1) If every further drag-over on [i]
    comes before the 500 ms have elapsed, then from 500 ms on the row has
    been activated exactly once, however long one waits. (2) A drag-over on
    [i] that comes after the timer has run arms a new timer, which activates
    the row again 500 ms later. (3) If instead the drag moves to another row
    before the 500 ms have elapsed, the pending activation is cancelled:
    [i] is not activated, then or later, as long as no drag-over is on [i]
    again. *)
Theorem hover_activates_after_delay_and_move_cancels
        (s : State) (i : ITerminalInstance) :
  singleTimer s = true ->
  sameTarget (_autoFocusInstance s) (Some i) = false ->
  let entered := snd (onDragOver ExternalDragAndDropData (Some i) None noEvent s) in
  let d := now s + 500 in
  (forall ts T,
      Forall (fun t => t < d) ts -> d <= T ->
      calls (advance T (deliverAll (holdOver i ts) entered))
      = calls s ++ [SetActiveInstance i])
  /\ (forall ts T t' T',
         Forall (fun t => t < d) ts -> d <= T -> T <= t' -> t' + 500 <= T' ->
         calls (advance T' (deliver (advance T (deliverAll (holdOver i ts) entered))
                                    (externalOver t' i)))
         = calls s ++ [SetActiveInstance i; SetActiveInstance i])
  /\ (forall ts t j rest T,
         Forall (fun t => t < d) ts -> t < d -> sameInstance i j = false ->
         Forall (fun e => sameTarget (eventTarget e) (Some i) = false) rest ->
         activations i (calls (advance T (deliverAll (holdOver i ts ++ externalOver t j :: rest)
                                                     entered)))
         = activations i (calls s)).
Proof.
  intros Hsingle Hchange entered d.
  destruct (onDragOver_arms s i None noEvent Hsingle Hchange) as (Harm & Hcalls & Hnow).
  fold entered in Harm, Hcalls, Hnow.
  change (now s + autoFocusDelay) with d in Harm.
  assert (Hheld : forall ts, Forall (fun t => t < d) ts ->
                             armedFor i d (deliverAll (holdOver i ts) entered)
                             /\ calls (deliverAll (holdOver i ts) entered) = calls s
                             /\ now (deliverAll (holdOver i ts) entered) < d).
  { intros ts Hts. rewrite <- Hcalls.
    apply deliverAll_same_row; [exact Harm | exact Hts | unfold d; lia]. }
  split; [| split].
  - intros ts T Hts HT.
    destruct (Hheld ts Hts) as (Harm' & Hcalls' & _).
    destruct (advance_fires _ i d T Harm' HT) as (Hfired & _).
    now rewrite Hfired, Hcalls'.
  - intros ts T t' T' Hts HT Ht' HT'.
    destruct (Hheld ts Hts) as (Harm' & Hcalls' & Hnow').
    set (held := deliverAll (holdOver i ts) entered) in *.
    destruct (advance_fires held i d T Harm' HT) as (Hfired & Hidle & Hafi & Hnowf).
    set (fired := advance T held) in *.
    destruct (advance_idle t' fired Hidle) as (Hc2 & Hidle2 & Hafi2 & Hnow2).
    assert (Hchange2 : sameTarget (_autoFocusInstance (advance t' fired)) (Some i) = false).
    { now rewrite Hafi2, Hafi. }
    destruct (onDragOver_arms (advance t' fired) i None noEvent
                              (singleTimer_idle _ Hidle2) Hchange2)
      as (Harm2 & Hcalls2 & _).
    assert (Hfire2 : now (advance t' fired) + autoFocusDelay <= T').
    { rewrite Hnow2, Hnowf. unfold autoFocusDelay. lia. }
    destruct (advance_fires _ i _ T' Harm2 Hfire2) as (Hfired2 & _).
    unfold deliver, externalOver. cbn [eventData eventTarget eventTime].
    rewrite Hfired2, Hcalls2, Hc2, Hfired, Hcalls'.
    now rewrite <- app_assoc.
  - intros ts t j rest T Hts Ht Hij Hrest.
    destruct (Hheld ts Hts) as (Harm' & Hcalls' & _).
    rewrite deliverAll_app.
    set (held := deliverAll (holdOver i ts) entered) in *.
    change (deliverAll (externalOver t j :: rest) held)
      with (deliverAll rest (deliver held (externalOver t j))).
    destruct (deliver_other_row held i j d t Harm' Ht Hij) as (Harm2 & Hcalls2).
    pose proof (notArmedFor_armed_other i j _ _ Harm2 Hij) as Hfree.
    destruct (notArmedFor_deliverAll i rest _ Hfree Hrest) as (Hfree' & Hsame).
    destruct (notArmedFor_advance i T _ Hfree') as (_ & Hsame').
    now rewrite Hsame', Hsame, Hcalls2, Hcalls'.
Qed.

Lemma hover_witness :
  let entered := snd (onDragOver ExternalDragAndDropData (Some Samples.bash) None noEvent
                                 initial) in
  calls (advance 500 (deliverAll (holdOver Samples.bash [100; 400]) entered))
  = [SetActiveInstance Samples.bash]
  /\ activations Samples.bash
       (calls (advance 2000 (deliverAll (holdOver Samples.bash [100]
                                           ++ [externalOver 300 Samples.zsh;
                                               externalOver 900 Samples.fish])
                                        entered)))
     = 0%nat.
Proof.
  destruct (hover_activates_after_delay_and_move_cancels initial Samples.bash eq_refl eq_refl)
    as (Hhold & _ & Hmove).
  split.
  - apply (Hhold [100; 400] 500); [repeat constructor; reflexivity | discriminate].
  - apply (Hmove [100] 300 Samples.zsh [externalOver 900 Samples.fish] 2000);
      [repeat constructor; reflexivity | reflexivity | reflexivity
       | repeat constructor; reflexivity].
Defined.

(** C2, as stated, fails on a drag that stays on one row for longer than the
    delay and keeps producing drag-over events: with one at 0 ms and one at
    600 ms, both on the same row and none on another, the row has been
    activated twice by 1200 ms, not once. *)
Lemma hover_reactivates_after_delay :
  activations Samples.bash
    (calls (advance 1200 (deliverAll (holdOver Samples.bash [0; 600]) initial)))
  = 2%nat.
Proof. reflexivity. Qed.

(** * Further properties of the drag-and-drop handler *)

Lemma singleTimer_record (cs : list ServiceCall) (s : State) :
  singleTimer (record cs s) = singleTimer s.
Proof. now destruct s. Qed.

Lemma reachable_deliverAll (es : list DragOverEvent) :
  forall s, reachable s -> reachable (deliverAll es s).
Proof.
  induction es as [| e es IH]; intros s Hs; [exact Hs |].
  change (deliverAll (e :: es) s) with (deliverAll es (deliver s e)).
  apply IH. unfold deliver. now apply reach_dragOver, reach_advance.
Qed.

(** X1. At every moment a handler has at most one auto-focus timer pending,
    and when it has one, [_autoFocusDisposable] is its handle and
    [_autoFocusInstance] the row it will activate. *)
Theorem reachable_single_timer (s : State) :
  reachable s ->
  singleTimer s = true /\ (List.length (timers s) <= 1)%nat.
Proof.
  intros Hr.
  assert (Hs : singleTimer s = true).
  { induction Hr.
    - reflexivity.
    - now apply singleTimer_advance.
    - now apply singleTimer_onDragOver.
    - apply singleTimer_idle. now apply timers_drop.
    - now rewrite singleTimer_record. }
  split; [exact Hs |].
  unfold singleTimer in Hs.
  destruct (timers s) as [| tm [| tm2 rest]]; simpl; first [lia | discriminate].
Qed.

Lemma reachable_single_timer_witness :
  let s := deliverAll [externalOver 0 Samples.bash; externalOver 100 Samples.zsh;
                       externalOver 700 Samples.fish] initial in
  singleTimer s = true /\ (List.length (timers s) <= 1)%nat.
Proof.
  apply reachable_single_timer.
  apply reachable_deliverAll, reach_initial.
Defined.

Lemma notArmedFor_onDragOver_rows (i : ITerminalInstance)
      (elements : list ITerminalInstance)
      (targetInstance : option ITerminalInstance)
      (targetIndex : option Z) (event : DragEvent) (s : State) :
  notArmedFor i s = true ->
  notArmedFor i (snd (onDragOver (ElementsDragAndDropData elements) targetInstance
                                 targetIndex event s)) = true.
Proof.
  intros Hs. unfold onDragOver.
  pose proof (notArmedFor_dispose i (_autoFocusDisposable s) s Hs) as Hd.
  destruct (negb (sameTarget (_autoFocusInstance s) targetInstance));
    destruct targetInstance; simpl; assumption.
Qed.

Lemma sparesRow_deliver (i : ITerminalInstance) (e : DragOverEvent) (s : State) :
  notArmedFor i s = true ->
  sparesRow i e = true ->
  notArmedFor i (deliver s e) = true
  /\ activations i (calls (deliver s e)) = activations i (calls s).
Proof.
  intros Hs He. destruct (notArmedFor_advance i (eventTime e) s Hs) as [Ha Hc].
  unfold deliver. split; [| now rewrite calls_onDragOver].
  unfold sparesRow in He. apply orb_true_iff in He as [Hrows | Hother].
  - destruct (eventData e); [| discriminate]. now apply notArmedFor_onDragOver_rows.
  - apply negb_true_iff in Hother. now apply notArmedFor_onDragOver.
Qed.

(** X2. A row is never activated by the timer unless an external drag-over
    was on it: as long as every drag-over event either drags rows of a list
    or is not on [i], and no timer was pending for [i] to begin with, no
    [setActiveInstance(i)] is added, however much time passes. *)
Theorem unhovered_row_is_never_activated (i : ITerminalInstance) (es : list DragOverEvent) :
  forall (s : State) (T : Z),
    notArmedFor i s = true ->
    forallb (sparesRow i) es = true ->
    activations i (calls (advance T (deliverAll es s))) = activations i (calls s).
Proof.
  induction es as [| e es IH]; intros s T Hs Hes.
  - now destruct (notArmedFor_advance i T s Hs).
  - simpl in Hes. apply andb_true_iff in Hes as [He Hes].
    destruct (sparesRow_deliver i e s Hs He) as [Hs' Hc'].
    change (deliverAll (e :: es) s) with (deliverAll es (deliver s e)).
    now rewrite (IH _ T Hs' Hes).
Qed.

Lemma unhovered_row_witness :
  activations Samples.fish
    (calls (advance 5000
              (deliverAll [externalOver 0 Samples.bash;
                           {| eventTime := 100;
                              eventData := ElementsDragAndDropData [Samples.zsh];
                              eventTarget := Some Samples.fish |};
                           externalOver 900 Samples.zsh] initial)))
  = 0%nat.
Proof.
  exact (unhovered_row_is_never_activated
           Samples.fish
           [externalOver 0 Samples.bash;
            {| eventTime := 100;
               eventData := ElementsDragAndDropData [Samples.zsh];
               eventTarget := Some Samples.fish |};
            externalOver 900 Samples.zsh]
           initial 5000 eq_refl eq_refl).
Defined.

(** Entering a row and staying on it until before the timer is due. *)
Lemma entered_then_held (s : State) (i : ITerminalInstance) (ts : list Z) :
  singleTimer s = true ->
  sameTarget (_autoFocusInstance s) (Some i) = false ->
  Forall (fun t => t < now s + 500) ts ->
  let held := deliverAll (holdOver i ts)
                         (snd (onDragOver ExternalDragAndDropData (Some i) None noEvent s)) in
  armedFor i (now s + 500) held /\ calls held = calls s /\ now held < now s + 500.
Proof.
  intros Hsingle Hchange Hts.
  destruct (onDragOver_arms s i None noEvent Hsingle Hchange) as (Harm & Hcalls & Hnow).
  cbv zeta. rewrite <- Hcalls.
  apply deliverAll_same_row; [exact Harm | exact Hts | rewrite Hnow; lia].
Qed.

(** X3. The timer never runs early: from the moment an external drag enters
    a row, and whatever drag-over events on that row follow, no call has
    been made at any time before the 500 ms have elapsed. *)
Theorem no_activation_before_delay (s : State) (i : ITerminalInstance)
        (ts : list Z) (T : Z) :
  singleTimer s = true ->
  sameTarget (_autoFocusInstance s) (Some i) = false ->
  Forall (fun t => t < now s + 500) ts ->
  T < now s + 500 ->
  calls (advance T (deliverAll (holdOver i ts)
                      (snd (onDragOver ExternalDragAndDropData (Some i) None noEvent s))))
  = calls s.
Proof.
  intros Hsingle Hchange Hts HT.
  destruct (entered_then_held s i ts Hsingle Hchange Hts) as (Harm & Hcalls & _).
  destruct (advance_before_due _ i _ T Harm HT) as (_ & Hc & _).
  now rewrite Hc.
Qed.

Lemma no_activation_before_delay_witness :
  calls (advance 499 (deliverAll (holdOver Samples.bash [50; 250; 450])
                        (snd (onDragOver ExternalDragAndDropData (Some Samples.bash)
                                         None noEvent initial))))
  = [].
Proof.
  apply (no_activation_before_delay initial Samples.bash [50; 250; 450] 499).
  - reflexivity.
  - reflexivity.
  - repeat constructor; reflexivity.
  - reflexivity.
Defined.

(** A drag-over that is on no row leaves no timer pending. *)
Lemma onDragOver_nothing (data : IDragAndDropData) (targetIndex : option Z)
      (event : DragEvent) (s : State) :
  singleTimer s = true ->
  timers (snd (onDragOver data None targetIndex event s)) = []
  /\ _autoFocusInstance (snd (onDragOver data None targetIndex event s)) = None.
Proof.
  intros Hs. unfold onDragOver.
  destruct (_autoFocusInstance s) as [a |] eqn:Hafi; simpl.
  - split; [now apply timers_dispose_single | reflexivity].
  - split; [| exact Hafi].
    unfold singleTimer in Hs. rewrite Hafi in Hs.
    destruct (timers s) as [| tm [| tm2 rest]]; [reflexivity | | discriminate].
    simpl in Hs. now rewrite andb_false_r in Hs.
Qed.

(** X4. Dragging off the rows cancels the pending activation: when an
    external drag has entered a row and, before the 500 ms have elapsed, a
    drag-over arrives that is on no row, the row is not activated, however
    much time passes afterwards. *)
Theorem leaving_the_rows_cancels (s : State) (i : ITerminalInstance)
        (ts : list Z) (t : Z) (data : IDragAndDropData) (T : Z) :
  singleTimer s = true ->
  sameTarget (_autoFocusInstance s) (Some i) = false ->
  Forall (fun t => t < now s + 500) ts ->
  t < now s + 500 ->
  let held := deliverAll (holdOver i ts)
                         (snd (onDragOver ExternalDragAndDropData (Some i) None noEvent s)) in
  let left := deliver held (overNothing t data) in
  timers left = [] /\ calls (advance T left) = calls s.
Proof.
  intros Hsingle Hchange Hts Ht held left.
  destruct (entered_then_held s i ts Hsingle Hchange Hts) as (Harm & Hcalls & _).
  fold held in Harm, Hcalls.
  destruct (advance_before_due held i _ t Harm Ht) as (Harm' & Hc & _).
  pose proof (singleTimer_armed _ _ _ Harm') as Hsingle'.
  destruct (onDragOver_nothing data None noEvent (advance t held) Hsingle') as (Hidle & _).
  assert (Hleft : left = snd (onDragOver data None None noEvent (advance t held)))
    by reflexivity.
  rewrite <- Hleft in Hidle. split; [exact Hidle |].
  destruct (advance_idle T left Hidle) as (HcT & _).
  rewrite HcT, Hleft, calls_onDragOver, Hc. exact Hcalls.
Qed.

Lemma leaving_the_rows_witness :
  calls (advance 3000
           (deliver (deliverAll (holdOver Samples.bash [100; 200])
                       (snd (onDragOver ExternalDragAndDropData (Some Samples.bash)
                                        None noEvent initial)))
                    (overNothing 300 ExternalDragAndDropData)))
  = [].
Proof.
  apply (leaving_the_rows_cancels
           initial Samples.bash [100; 200] 300 ExternalDragAndDropData 3000).
  - reflexivity.
  - reflexivity.
  - repeat constructor; reflexivity.
  - reflexivity.
Defined.

Lemma state_after_drop
      (RESOURCES : string) (resourcesFsPath : string -> Completion string)
      (fileFsPath : string -> string)
      (data : IDragAndDropData) (targetInstance : option ITerminalInstance)
      (targetIndex : option Z) (event : DragEvent) (s : State) :
  let dropped := fst (drop RESOURCES resourcesFsPath fileFsPath data targetInstance
                           targetIndex event s) in
  _autoFocusInstance dropped = None /\ now dropped = now s.
Proof.
  unfold drop.
  destruct (negb (isElementsData data));
    [destruct (runSync (_handleExternalDrop RESOURCES resourcesFsPath fileFsPath
                                            targetInstance event)) |];
    simpl; destruct (_autoFocusDisposable s); simpl; auto.
Qed.

(** X5. A drop cancels the pending activation: whatever is dropped and
    wherever, when [drop] returns no timer is pending and no row is tracked,
    so the passing of time adds no call to those made by then. *)
Theorem drop_cancels_pending_activation
        (RESOURCES : string) (resourcesFsPath : string -> Completion string)
        (fileFsPath : string -> string)
        (data : IDragAndDropData) (targetInstance : option ITerminalInstance)
        (targetIndex : option Z) (event : DragEvent) (s : State) (T : Z) :
  singleTimer s = true ->
  let dropped := fst (drop RESOURCES resourcesFsPath fileFsPath data targetInstance
                           targetIndex event s) in
  timers dropped = []
  /\ _autoFocusInstance dropped = None
  /\ calls (advance T dropped) = calls dropped.
Proof.
  intros Hs dropped.
  pose proof (timers_drop RESOURCES resourcesFsPath fileFsPath data targetInstance
                          targetIndex event s Hs) as Hidle.
  fold dropped in Hidle.
  split; [exact Hidle |]. split.
  - apply (state_after_drop RESOURCES resourcesFsPath fileFsPath data targetInstance
                            targetIndex event s).
  - now destruct (advance_idle T dropped Hidle).
Qed.

Lemma drop_cancels_witness :
  let hovering := deliverAll [externalOver 0 Samples.bash] initial in
  let dropped := fst (drop Samples.resourcesKey Samples.readResources Samples.readFile
                           (ElementsDragAndDropData [Samples.zsh]) (Some Samples.bash)
                           (Some 0) noEvent hovering) in
  List.length (timers hovering) = 1%nat
  /\ timers dropped = []
  /\ calls (advance 10000 dropped) = [].
Proof.
  split; [reflexivity |].
  destruct (drop_cancels_pending_activation
              Samples.resourcesKey Samples.readResources Samples.readFile
              (ElementsDragAndDropData [Samples.zsh]) (Some Samples.bash)
              (Some 0) noEvent (deliverAll [externalOver 0 Samples.bash] initial) 10000
              eq_refl) as (H1 & _ & H3).
  split; [exact H1 | exact H3].
Defined.

Lemma onDragOver_rows_idle (elements : list ITerminalInstance)
      (targetInstance : option ITerminalInstance) (targetIndex : option Z)
      (event : DragEvent) (s : State) :
  timers s = [] ->
  timers (snd (onDragOver (ElementsDragAndDropData elements) targetInstance targetIndex
                          event s)) = [].
Proof.
  intros Hs. unfold onDragOver.
  destruct (negb (sameTarget (_autoFocusInstance s) targetInstance));
    destruct targetInstance; simpl; try assumption;
      destruct (_autoFocusDisposable s); simpl; now rewrite ?Hs.
Qed.

(** X6. Dragging rows of a list never arms the timer: while no timer is
    pending and every drag-over event carries rows, none becomes pending
    and the passing of time makes no call, whichever rows the drag is on. *)
Theorem dragging_rows_never_activates (es : list DragOverEvent) :
  forall (s : State) (T : Z),
    timers s = [] ->
    forallb (fun e => isElementsData (eventData e)) es = true ->
    timers (deliverAll es s) = []
    /\ calls (advance T (deliverAll es s)) = calls s.
Proof.
  induction es as [| e es IH]; intros s T Hs Hes.
  - split; [exact Hs |]. now destruct (advance_idle T s Hs).
  - simpl in Hes. apply andb_true_iff in Hes as [He Hes].
    change (deliverAll (e :: es) s) with (deliverAll es (deliver s e)).
    destruct (advance_idle (eventTime e) s Hs) as (Hc & Hidle & _).
    assert (Hstep : timers (deliver s e) = [] /\ calls (deliver s e) = calls s).
    { unfold deliver. rewrite calls_onDragOver. split; [| exact Hc].
      destruct (eventData e); [| discriminate]. now apply onDragOver_rows_idle. }
    destruct Hstep as [Hidle' Hc'].
    destruct (IH (deliver s e) T Hidle' Hes) as [H1 H2].
    split; [exact H1 | congruence].
Qed.

Lemma dragging_rows_witness :
  let es := [ {| eventTime := 0;
                 eventData := ElementsDragAndDropData [Samples.bash];
                 eventTarget := Some Samples.zsh |};
              {| eventTime := 800;
                 eventData := ElementsDragAndDropData [Samples.bash];
                 eventTarget := Some Samples.fish |} ] in
  timers (deliverAll es initial) = []
  /\ calls (advance 5000 (deliverAll es initial)) = [].
Proof.
  exact (dragging_rows_never_activates
           [ {| eventTime := 0;
                eventData := ElementsDragAndDropData [Samples.bash];
                eventTarget := Some Samples.zsh |};
             {| eventTime := 800;
                eventData := ElementsDragAndDropData [Samples.bash];
                eventTarget := Some Samples.fish |} ]
           initial 5000 eq_refl eq_refl).
Defined.

(** X7. A drop forgets the row that was tracked: the first external
    drag-over on a row after a drop, be it the row the drag was on before
    the drop, arms the timer, and the row is activated 500 ms later. *)
Theorem drag_over_after_drop_arms_again
        (RESOURCES : string) (resourcesFsPath : string -> Completion string)
        (fileFsPath : string -> string)
        (data : IDragAndDropData) (targetInstance : option ITerminalInstance)
        (targetIndex : option Z) (event : DragEvent) (s : State)
        (i : ITerminalInstance) (t T : Z) :
  singleTimer s = true ->
  Z.max (now s) t + 500 <= T ->
  let dropped := fst (drop RESOURCES resourcesFsPath fileFsPath data targetInstance
                           targetIndex event s) in
  calls (advance T (deliver dropped (externalOver t i)))
  = calls dropped ++ [SetActiveInstance i].
Proof.
  intros Hs HT dropped.
  destruct (drop_cancels_pending_activation RESOURCES resourcesFsPath fileFsPath data
              targetInstance targetIndex event s t Hs) as (Hidle & Hafi & _).
  destruct (state_after_drop RESOURCES resourcesFsPath fileFsPath data targetInstance
                             targetIndex event s) as (_ & Hnow).
  fold dropped in Hidle, Hafi, Hnow.
  destruct (advance_idle t dropped Hidle) as (Hc & Hidle' & Hafi' & Hnow').
  assert (Hchange : sameTarget (_autoFocusInstance (advance t dropped)) (Some i) = false).
  { now rewrite Hafi', Hafi. }
  destruct (onDragOver_arms (advance t dropped) i None noEvent
                            (singleTimer_idle _ Hidle') Hchange) as (Harm & Hcalls & _).
  assert (Hdue : now (advance t dropped) + autoFocusDelay <= T).
  { rewrite Hnow', Hnow. unfold autoFocusDelay. exact HT. }
  destruct (advance_fires _ i _ T Harm Hdue) as (Hfired & _).
  unfold deliver, externalOver. cbn [eventData eventTarget eventTime].
  now rewrite Hfired, Hcalls, Hc.
Qed.

Lemma drag_over_after_drop_witness :
  let hovering := deliverAll [externalOver 0 Samples.bash] initial in
  let dropped := fst (drop Samples.resourcesKey Samples.readResources Samples.readFile
                           (ElementsDragAndDropData [Samples.zsh]) (Some Samples.bash)
                           (Some 0) noEvent hovering) in
  calls (advance 700 (deliver dropped (externalOver 200 Samples.bash)))
  = [SetActiveInstance Samples.bash].
Proof.
  exact (drag_over_after_drop_arms_again
           Samples.resourcesKey Samples.readResources Samples.readFile
           (ElementsDragAndDropData [Samples.zsh]) (Some Samples.bash)
           (Some 0) noEvent (deliverAll [externalOver 0 Samples.bash] initial)
           Samples.bash 200 700 eq_refl ltac:(discriminate)).
Defined.

(** * Further properties of drops *)

Lemma drop_external
      (RESOURCES : string) (resourcesFsPath : string -> Completion string)
      (fileFsPath : string -> string)
      (data : IDragAndDropData) (targetInstance : option ITerminalInstance)
      (targetIndex : option Z) (event : DragEvent) (s : State) :
  isElementsData data = false ->
  drop RESOURCES resourcesFsPath fileFsPath data targetInstance targetIndex event s
  = (record (fst (runSync (_handleExternalDrop RESOURCES resourcesFsPath fileFsPath
                                               targetInstance event)))
            (setAutoFocusInstance None (dispose (_autoFocusDisposable s) s)),
     snd (runSync (_handleExternalDrop RESOURCES resourcesFsPath fileFsPath
                                       targetInstance event))).
Proof.
  intros Hext. unfold drop. rewrite Hext. simpl.
  now destruct (runSync (_handleExternalDrop RESOURCES resourcesFsPath fileFsPath
                                             targetInstance event)).
Qed.

Lemma calls_after_external_drop (cs : list ServiceCall) (s : State) :
  calls (record cs (setAutoFocusInstance None (dispose (_autoFocusDisposable s) s)))
  = calls s ++ cs.
Proof. simpl. now rewrite calls_dispose. Qed.

(** X8. When [drop] returns from an external drop, either it has made no
    call, and the task it started is over, or it has made exactly two, the
    activation of the target row and the request to prepare a path; the
    latter only for a drop on a row whose payload gave a path that is not
    empty, and then the task is suspended. *)
Theorem external_drop_calls_none_or_two
        (RESOURCES : string) (resourcesFsPath : string -> Completion string)
        (fileFsPath : string -> string)
        (data : IDragAndDropData) (targetInstance : option ITerminalInstance)
        (targetIndex : option Z) (event : DragEvent) (s : State) :
  isElementsData data = false ->
  let dropped := drop RESOURCES resourcesFsPath fileFsPath data targetInstance targetIndex
                      event s in
  (calls (fst dropped) = calls s
   /\ (snd dropped = Resolved \/ exists e, snd dropped = Rejected e))
  \/ (exists instance transfer p,
         targetInstance = Some instance
         /\ dataTransfer event = Some transfer
         /\ droppedPath RESOURCES resourcesFsPath fileFsPath transfer = Normal (Some p)
         /\ Js.truthy p = true
         /\ calls (fst dropped)
            = calls s ++ [SetActiveInstance instance;
                          PreparePathForTerminalAsync
                            p (executable (shellLaunchConfig instance))
                            (title instance) (shellType instance) (isRemote instance)]
         /\ exists k, snd dropped = AwaitString k).
Proof.
  intros Hext dropped. unfold dropped. rewrite (drop_external _ _ _ _ _ _ _ _ Hext).
  cbn [fst snd]. rewrite calls_after_external_drop.
  unfold _handleExternalDrop.
  destruct targetInstance as [instance |];
    [| left; simpl; rewrite app_nil_r; auto].
  destruct (dataTransfer event) as [transfer |] eqn:Htransfer;
    [| left; simpl; rewrite app_nil_r; auto].
  destruct (droppedPath RESOURCES resourcesFsPath fileFsPath transfer)
    as [[p |] | e] eqn:Hpath.
  - destruct (Js.truthy p) eqn:Hp; simpl.
    + right. exists instance, transfer, p.
      split; [reflexivity |]. split; [reflexivity |]. split; [exact Hpath |].
      split; [exact Hp |]. split; [reflexivity |]. eexists. reflexivity.
    + left. rewrite app_nil_r. auto.
  - left. simpl. rewrite app_nil_r. auto.
  - left. simpl. rewrite app_nil_r. split; [reflexivity |]. right. now exists e.
Qed.

Lemma external_drop_calls_witness :
  let dropped := drop Samples.resourcesKey Samples.readResources Samples.readFile
                      ExternalDragAndDropData (Some Samples.zsh) (Some 1)
                      {| dataTransfer := Some Samples.explorerTransfer |} initial in
  List.length (calls (fst dropped)) = 2%nat.
Proof.
  destruct (external_drop_calls_none_or_two
              Samples.resourcesKey Samples.readResources Samples.readFile
              ExternalDragAndDropData (Some Samples.zsh) (Some 1)
              {| dataTransfer := Some Samples.explorerTransfer |} initial eq_refl)
    as [[Hnone _] | (instance & transfer & p & _ & _ & _ & _ & Htwo & _)].
  - discriminate Hnone.
  - cbv zeta. rewrite Htwo. reflexivity.
Defined.

(** X9. When the promise of [preparePathForTerminalAsync] is rejected,
    nothing is sent to the terminal and it is not focused: the calls stay at
    the activation and the request, the task of the drop ends rejected with
    the error of the promise, and nothing that settles later adds a call. *)
Theorem external_drop_with_failed_preparation
        (RESOURCES : string) (resourcesFsPath : string -> Completion string)
        (fileFsPath : string -> string)
        (data : IDragAndDropData) (instance : ITerminalInstance)
        (targetIndex : option Z) (transfer : DataTransfer)
        (p : string) (e : Js.Error) (s : State) :
  isElementsData data = false ->
  droppedPath RESOURCES resourcesFsPath fileFsPath transfer = Normal (Some p) ->
  Js.truthy p = true ->
  let done := resume (Throw e)
                     (drop RESOURCES resourcesFsPath fileFsPath data (Some instance)
                           targetIndex {| dataTransfer := Some transfer |} s) in
  calls (fst done)
  = calls s ++ [SetActiveInstance instance;
                PreparePathForTerminalAsync p (executable (shellLaunchConfig instance))
                  (title instance) (shellType instance) (isRemote instance)]
  /\ snd done = Rejected e
  /\ forall r, calls (fst (resume r done)) = calls (fst done).
Proof.
  intros Hext Hpath Hp done.
  assert (Hdone : done
                  = (record []
                       (record [SetActiveInstance instance;
                                PreparePathForTerminalAsync
                                  p (executable (shellLaunchConfig instance))
                                  (title instance) (shellType instance)
                                  (isRemote instance)]
                          (setAutoFocusInstance None (dispose (_autoFocusDisposable s) s))),
                     Rejected e)).
  { unfold done. rewrite (drop_external _ _ _ _ _ _ _ _ Hext).
    unfold _handleExternalDrop. cbn [dataTransfer]. rewrite Hpath, Hp. reflexivity. }
  rewrite Hdone. unfold resume. simpl.
  rewrite calls_dispose, !app_nil_r. auto.
Qed.

Lemma external_drop_failed_preparation_witness :
  let done := resume (Throw (MkError "no such shell"))
                     (drop Samples.resourcesKey Samples.readResources Samples.readFile
                           ExternalDragAndDropData (Some Samples.zsh) (Some 1)
                           {| dataTransfer := Some Samples.explorerTransfer |} initial) in
  calls (fst done)
  = [SetActiveInstance Samples.zsh;
     PreparePathForTerminalAsync "/home/u/a.txt" (Some "/bin/sh") "zsh" None false]
  /\ snd done = Rejected (MkError "no such shell").
Proof.
  destruct (external_drop_with_failed_preparation
              Samples.resourcesKey Samples.readResources Samples.readFile
              ExternalDragAndDropData Samples.zsh (Some 1)
              Samples.explorerTransfer "/home/u/a.txt" (MkError "no such shell") initial
              eq_refl eq_refl eq_refl) as (H1 & H2 & _).
  split; [exact H1 | exact H2].
Defined.

(** X10. When reading the resource list of the payload throws, the drop
    makes no call: the row is not activated, no path is prepared, and the
    task ends rejected with the error that was thrown. *)
Theorem external_drop_with_unreadable_resources
        (RESOURCES : string) (resourcesFsPath : string -> Completion string)
        (fileFsPath : string -> string)
        (data : IDragAndDropData) (instance : ITerminalInstance)
        (targetIndex : option Z) (transfer : DataTransfer)
        (e : Js.Error) (s : State) :
  isElementsData data = false ->
  Js.truthy (getData transfer RESOURCES) = true ->
  resourcesFsPath (getData transfer RESOURCES) = Throw e ->
  let dropped := drop RESOURCES resourcesFsPath fileFsPath data (Some instance)
                      targetIndex {| dataTransfer := Some transfer |} s in
  calls (fst dropped) = calls s
  /\ snd dropped = Rejected e
  /\ forall r, calls (fst (resume r dropped)) = calls s.
Proof.
  intros Hext Hres Hthrow dropped.
  assert (Hdrop : dropped
                  = (record [] (setAutoFocusInstance None (dispose (_autoFocusDisposable s) s)),
                     Rejected e)).
  { unfold dropped. rewrite (drop_external _ _ _ _ _ _ _ _ Hext).
    unfold _handleExternalDrop, droppedPath. cbn [dataTransfer].
    rewrite Hres, Hthrow. reflexivity. }
  rewrite Hdrop. unfold resume. simpl.
  rewrite calls_dispose, !app_nil_r. auto.
Qed.

Lemma external_drop_unreadable_witness :
  let transfer := {| getData := fun _ => "not json"; files := [{| path := Some "/tmp/x" |}] |} in
  let dropped := drop Samples.resourcesKey Samples.readResources Samples.readFile
                      ExternalDragAndDropData (Some Samples.zsh) (Some 1)
                      {| dataTransfer := Some transfer |} initial in
  calls (fst dropped) = [] /\ snd dropped = Rejected (MkError "Unexpected token").
Proof.
  destruct (external_drop_with_unreadable_resources
              Samples.resourcesKey Samples.readResources Samples.readFile
              ExternalDragAndDropData Samples.zsh (Some 1)
              {| getData := fun _ => "not json"; files := [{| path := Some "/tmp/x" |}] |}
              (MkError "Unexpected token") initial
              eq_refl eq_refl eq_refl) as (H1 & H2 & _).
  split; [exact H1 | exact H2].
Defined.

(** X11. The resource list comes first: when the payload has a resource
    list whose path is not empty, that path is the one prepared, whatever
    files the payload has beside it. *)
Theorem resource_list_takes_precedence_over_files
        (RESOURCES : string) (resourcesFsPath : string -> Completion string)
        (fileFsPath : string -> string)
        (data : IDragAndDropData) (instance : ITerminalInstance)
        (targetIndex : option Z) (transfer : DataTransfer) (p : string) (s : State) :
  isElementsData data = false ->
  Js.truthy (getData transfer RESOURCES) = true ->
  resourcesFsPath (getData transfer RESOURCES) = Normal p ->
  Js.truthy p = true ->
  forall otherFiles,
    calls (fst (drop RESOURCES resourcesFsPath fileFsPath data (Some instance) targetIndex
                     {| dataTransfer := Some {| getData := getData transfer;
                                                files := otherFiles |} |} s))
    = calls s ++ [SetActiveInstance instance;
                  PreparePathForTerminalAsync p (executable (shellLaunchConfig instance))
                    (title instance) (shellType instance) (isRemote instance)].
Proof.
  intros Hext Hres Hparse Hp otherFiles.
  rewrite (drop_external _ _ _ _ _ _ _ _ Hext). cbn [fst].
  rewrite calls_after_external_drop.
  unfold _handleExternalDrop, droppedPath. cbn [dataTransfer getData files].
  now rewrite Hres, Hparse, Hp.
Qed.

Lemma resource_list_precedence_witness :
  calls (fst (drop Samples.resourcesKey Samples.readResources Samples.readFile
                   ExternalDragAndDropData (Some Samples.fish) None
                   {| dataTransfer :=
                        Some {| getData := getData Samples.explorerTransfer;
                                files := [{| path := Some "/etc/passwd" |}] |} |}
                   initial))
  = [SetActiveInstance Samples.fish;
     PreparePathForTerminalAsync "/home/u/a.txt" (Some "/bin/sh") "fish" None false].
Proof.
  exact (resource_list_takes_precedence_over_files
           Samples.resourcesKey Samples.readResources Samples.readFile
           ExternalDragAndDropData Samples.fish None Samples.explorerTransfer
           "/home/u/a.txt" initial eq_refl eq_refl eq_refl eq_refl
           [{| path := Some "/etc/passwd" |}]).
Defined.

(** X12. Without a resource list, only the first dragged file counts: its
    path is the one prepared, whatever files follow it; and when the first
    file has no path, nothing is called even if a later file has one. *)
Theorem only_the_first_file_counts
        (RESOURCES : string) (resourcesFsPath : string -> Completion string)
        (fileFsPath : string -> string)
        (data : IDragAndDropData) (instance : ITerminalInstance)
        (targetIndex : option Z) (transfer : DataTransfer)
        (first : File) (others : list File) (s : State) :
  isElementsData data = false ->
  getData transfer RESOURCES = EmptyString ->
  files transfer = first :: others ->
  let dropped := drop RESOURCES resourcesFsPath fileFsPath data (Some instance) targetIndex
                      {| dataTransfer := Some transfer |} s in
  (forall q, path first = Some q -> Js.truthy q = true ->
             Js.truthy (fileFsPath q) = true ->
             calls (fst dropped)
             = calls s ++ [SetActiveInstance instance;
                           PreparePathForTerminalAsync
                             (fileFsPath q) (executable (shellLaunchConfig instance))
                             (title instance) (shellType instance) (isRemote instance)])
  /\ (Js.truthyOpt (path first) = false ->
      calls (fst dropped) = calls s /\ snd dropped = Resolved).
Proof.
  intros Hext Hres Hfiles dropped. unfold dropped.
  rewrite (drop_external _ _ _ _ _ _ _ _ Hext). cbn [fst snd].
  rewrite calls_after_external_drop.
  unfold _handleExternalDrop, droppedPath. cbn [dataTransfer].
  rewrite Hres, Hfiles. change (Js.truthy EmptyString) with false. cbv beta iota. split.
  - intros q Hq Htruthy Hfs. rewrite Hq, Htruthy. cbv beta iota.
    now rewrite Hfs.
  - intros Hnone. destruct (path first) as [q |]; simpl in Hnone.
    + rewrite Hnone. simpl. now rewrite app_nil_r.
    + simpl. now rewrite app_nil_r.
Qed.

Lemma only_the_first_file_witness :
  let transfer := {| getData := fun _ => EmptyString;
                     files := [{| path := None |}; {| path := Some "/tmp/second" |}] |} in
  let dropped := drop Samples.resourcesKey Samples.readResources Samples.readFile
                      ExternalDragAndDropData (Some Samples.bash) (Some 0)
                      {| dataTransfer := Some transfer |} initial in
  calls (fst dropped) = [] /\ snd dropped = Resolved.
Proof.
  exact (proj2 (only_the_first_file_counts
                  Samples.resourcesKey Samples.readResources Samples.readFile
                  ExternalDragAndDropData Samples.bash (Some 0)
                  {| getData := fun _ => EmptyString;
                     files := [{| path := None |}; {| path := Some "/tmp/second" |}] |}
                  {| path := None |} [{| path := Some "/tmp/second" |}] initial
                  eq_refl eq_refl eq_refl) eq_refl).
Defined.

(** * Further properties of the renderer *)

Lemma append_assoc (a b c : string) : (a +++ b) +++ c = a +++ (b +++ c).
Proof. induction a as [| ch a IH]; simpl; [reflexivity | now rewrite IH]. Qed.

Lemma append_empty_r (a : string) : a +++ EmptyString = a.
Proof. induction a as [| ch a IH]; simpl; [reflexivity | now rewrite IH]. Qed.

Lemma addStatus_section (t : string) (hs : list IHoverAction) (status : ITerminalStatus) :
  addStatus (t, hs) status = (t +++ statusSection status, hs ++ statusActions status).
Proof.
  unfold addStatus, statusSection, statusActions. simpl.
  destruct (statusHoverActions status); [reflexivity | now rewrite app_nil_r].
Qed.

(** The loop over the statuses appends one section and the actions of each
    status, in the order of the list. *)
Lemma fold_addStatus (sts : list ITerminalStatus) :
  forall (t : string) (hs : list IHoverAction),
    fold_left addStatus sts (t, hs)
    = (t +++ joinAll (map statusSection sts), hs ++ flat_map statusActions sts).
Proof.
  induction sts as [| st sts IH]; intros t hs; simpl.
  - now rewrite append_empty_r, app_nil_r.
  - rewrite addStatus_section, IH. now rewrite append_assoc, <- app_assoc.
Qed.

(** Everything [renderElement] leaves on the template. *)
Lemma renderElement_result
      (container : option HTMLElement)
      (getGroupForInstance : ITerminalInstance -> option ITerminalGroup)
      (localize : string -> string -> list LocalizeArg -> string)
      (lookupKeybinding : TerminalCommandId.t -> option string)
      (instance : ITerminalInstance) (index : Z)
      (template : ITerminalTabEntryTemplate) (group : ITerminalGroup) :
  getGroupForInstance instance = Some group ->
  exists rendered l,
    renderElement container getGroupForInstance localize lookupKeybinding
                  instance index template = Normal rendered
    /\ label rendered = Some l
    /\ labelName l = splitPrefix group instance
                       +++ labelBody (negb (shouldHideText container)) instance
    /\ titleMarkdown l
       = title instance +++ joinAll (map statusSection (statuses (statusList instance)))
    /\ labelDescription l
       = (if shouldHideText container then None
          else description (shellLaunchConfig instance))
    /\ hoverActions rendered
       = Some (flat_map statusActions (statuses (statusList instance)))
    /\ elementDispoables rendered
       = Some (match elementDispoables template with
               | Some ds => ds ++ [instance]
               | None => [instance]
               end)
    /\ actionBar rendered
       = (if shouldHideActionBar container then []
          else if shouldHideText container then actionBar template
               else [splitItem localize lookupKeybinding instance;
                     killItem localize lookupKeybinding instance]).
Proof.
  intros Hg. unfold renderElement. rewrite Hg, fold_addStatus.
  eexists. eexists. split; [reflexivity |].
  cbn [label labelName titleMarkdown labelDescription hoverActions elementDispoables
       actionBar].
  repeat split.
  - now destruct (shouldHideText container).
  - now destruct (shouldHideText container).
  - destruct (shouldHideActionBar container); [reflexivity |].
    now destruct (shouldHideText container).
Qed.

(** X13. The hover of a row is the title of the instance followed by one
    section per status, in the order of the status list, and its actions
    are the hover actions of all the statuses in that order, whatever the
    template held from the row rendered before; with no status the hover is
    the title alone and has no action. *)
Theorem hover_collects_the_statuses
        (container : option HTMLElement)
        (getGroupForInstance : ITerminalInstance -> option ITerminalGroup)
        (localize : string -> string -> list LocalizeArg -> string)
        (lookupKeybinding : TerminalCommandId.t -> option string)
        (instance : ITerminalInstance) (index : Z)
        (template : ITerminalTabEntryTemplate) (group : ITerminalGroup) :
  getGroupForInstance instance = Some group ->
  exists rendered l,
    renderElement container getGroupForInstance localize lookupKeybinding
                  instance index template = Normal rendered
    /\ label rendered = Some l
    /\ titleMarkdown l
       = title instance +++ joinAll (map statusSection (statuses (statusList instance)))
    /\ hoverActions rendered
       = Some (flat_map statusActions (statuses (statusList instance)))
    /\ (statuses (statusList instance) = [] ->
        titleMarkdown l = title instance /\ hoverActions rendered = Some []).
Proof.
  intros Hg.
  destruct (renderElement_result container getGroupForInstance localize lookupKeybinding
              instance index template group Hg)
    as (rendered & l & Hr & Hl & _ & Htitle & _ & Hhover & _).
  exists rendered, l. repeat split; try assumption.
  - rewrite Htitle, H. simpl. apply append_empty_r.
  - now rewrite Hhover, H.
Qed.

Lemma hover_collects_witness :
  let disconnected :=
    {| statusId := "disconnected"; severity := Warning;
       statusIcon := Some {| iconId := "debug-disconnect"; iconColor := None |};
       tooltip := Some "Lost connection";
       statusHoverActions := Some [{| hoverLabel := "Retry"; hoverCommandId := "retry" |}] |} in
  let bell :=
    {| statusId := "bell"; severity := Info; statusIcon := None; tooltip := None;
       statusHoverActions := None |} in
  let instance :=
    {| ref := 7; instanceId := 8; title := "ssh"; icon := None; color := None;
       statusList := {| statuses := [disconnected; bell]; primary := Some disconnected |};
       shellLaunchConfig := {| executable := None; description := None |};
       shellType := None; isRemote := true; resource := "vscode-terminal:/8" |} in
  exists rendered l,
    renderElement None Samples.inSplit3 Nls.localize Samples.noKeybinding
                  instance 0 renderTemplate = Normal rendered
    /\ label rendered = Some l
    /\ titleMarkdown l
       = "ssh" +++ newline +++ newline +++ "---" +++ newline +++ newline
               +++ "$(debug-disconnect) Lost connection"
               +++ newline +++ newline +++ "---" +++ newline +++ newline +++ "bell"
    /\ hoverActions rendered = Some [{| hoverLabel := "Retry"; hoverCommandId := "retry" |}].
Proof.
  intros disconnected bell instance.
  destruct (hover_collects_the_statuses
              None Samples.inSplit3 Nls.localize Samples.noKeybinding
              instance 0 renderTemplate Samples.split3 eq_refl)
    as (rendered & l & Hr & Hl & Htitle & Hhover & _).
  exists rendered, l. repeat split; assumption.
Defined.

(** X14. When the action bar is shown it holds exactly the split and the
    kill action of the instance being rendered, in that order, whatever the
    template held before: a row that is reused for another instance never
    keeps the actions of the instance it showed before. *)
Theorem shown_action_bar_is_of_the_rendered_instance
        (container : option HTMLElement)
        (getGroupForInstance : ITerminalInstance -> option ITerminalGroup)
        (localize : string -> string -> list LocalizeArg -> string)
        (lookupKeybinding : TerminalCommandId.t -> option string)
        (instance : ITerminalInstance) (index : Z)
        (template : ITerminalTabEntryTemplate) (group : ITerminalGroup) :
  getGroupForInstance instance = Some group ->
  shouldHideActionBar container = false ->
  exists rendered,
    renderElement container getGroupForInstance localize lookupKeybinding
                  instance index template = Normal rendered
    /\ actionBar rendered = [splitItem localize lookupKeybinding instance;
                             killItem localize lookupKeybinding instance]
    /\ map (fun item => actionRun (itemAction item)) (actionBar rendered)
       = [RunSplit instance; RunKill instance].
Proof.
  intros Hg Hbar.
  assert (Htext : shouldHideText container = false).
  { destruct container as [c |]; [| reflexivity].
    unfold shouldHideText, shouldHideActionBar in *.
    change TerminalTabsListSizes.MidpointViewWidth with 63.
    change TerminalTabsListSizes.ActionbarMinimumWidth with 105 in Hbar.
    apply Z.leb_gt in Hbar. apply Z.ltb_ge. lia. }
  destruct (renderElement_result container getGroupForInstance localize lookupKeybinding
              instance index template group Hg)
    as (rendered & l & Hr & _ & _ & _ & _ & _ & _ & Hitems).
  rewrite Hbar, Htext in Hitems.
  exists rendered. split; [exact Hr |]. split; [exact Hitems |]. now rewrite Hitems.
Qed.

Lemma shown_action_bar_witness :
  let reused := fillActionBar Nls.localize Samples.noKeybinding Samples.bash renderTemplate in
  exists rendered,
    renderElement (Some Samples.wide) Samples.inSplit3 Nls.localize Samples.noKeybinding
                  Samples.fish 2 reused = Normal rendered
    /\ map (fun item => actionRun (itemAction item)) (actionBar rendered)
       = [RunSplit Samples.fish; RunKill Samples.fish].
Proof.
  destruct (shown_action_bar_is_of_the_rendered_instance
              (Some Samples.wide) Samples.inSplit3 Nls.localize Samples.noKeybinding
              Samples.fish 2
              (fillActionBar Nls.localize Samples.noKeybinding Samples.bash renderTemplate)
              Samples.split3 eq_refl eq_refl) as (rendered & Hr & _ & Hruns).
  exists rendered. split; [exact Hr | exact Hruns].
Defined.

Lemma auxClick_listeners (listeners : list ITerminalInstance) (template : ITerminalTabEntryTemplate) :
  elementDispoables template = Some listeners ->
  auxClick template 1 = map InstanceDispose listeners
  /\ forall button, button <> 1 -> auxClick template button = [].
Proof.
  intros Hl. unfold auxClick. rewrite Hl. clear Hl. split.
  - induction listeners as [| i rest IH]; [reflexivity |].
    cbn [flat_map map]. rewrite IH. reflexivity.
  - intros button Hb.
    induction listeners as [| i rest IH]; [reflexivity |].
    cbn [flat_map]. rewrite IH. unfold onAuxClick.
    now destruct (Z.eqb_spec button 1).
Qed.

(** X15. The middle-click listeners of a row. Into a new template, or into
    one that [disposeElement] has been called on, [renderElement] leaves one
    listener: a middle click on the row kills the instance that is rendered
    and no other, and a click of another auxiliary button kills nothing.
    When the same template is rendered again without [disposeElement] in
    between, the listener of the first instance stays: a middle click then
    kills both. *)
Theorem middle_click_kills_the_rendered_instance
        (container : option HTMLElement)
        (getGroupForInstance : ITerminalInstance -> option ITerminalGroup)
        (localize : string -> string -> list LocalizeArg -> string)
        (lookupKeybinding : TerminalCommandId.t -> option string)
        (first second : ITerminalInstance) (index : Z)
        (template : ITerminalTabEntryTemplate) (group1 group2 : ITerminalGroup) :
  getGroupForInstance first = Some group1 ->
  getGroupForInstance second = Some group2 ->
  exists once again afterDispose,
    renderElement container getGroupForInstance localize lookupKeybinding
                  first index (disposeElement first index template) = Normal once
    /\ auxClick once 1 = [InstanceDispose first]
    /\ (forall button, button <> 1 -> auxClick once button = [])
    /\ renderElement container getGroupForInstance localize lookupKeybinding
                     second index once = Normal again
    /\ auxClick again 1 = [InstanceDispose first; InstanceDispose second]
    /\ renderElement container getGroupForInstance localize lookupKeybinding
                     second index (disposeElement first index once) = Normal afterDispose
    /\ auxClick afterDispose 1 = [InstanceDispose second].
Proof.
  intros Hg1 Hg2.
  destruct (renderElement_result container getGroupForInstance localize lookupKeybinding
              first index (disposeElement first index template) group1 Hg1)
    as (once & l1 & Hr1 & _ & _ & _ & _ & _ & Hl1 & _).
  destruct (renderElement_result container getGroupForInstance localize lookupKeybinding
              second index once group2 Hg2)
    as (again & l2 & Hr2 & _ & _ & _ & _ & _ & Hl2 & _).
  destruct (renderElement_result container getGroupForInstance localize lookupKeybinding
              second index (disposeElement first index once) group2 Hg2)
    as (afterDispose & l3 & Hr3 & _ & _ & _ & _ & _ & Hl3 & _).
  simpl in Hl1, Hl3. rewrite Hl1 in Hl2. simpl in Hl2.
  exists once, again, afterDispose.
  split; [exact Hr1 |].
  split; [exact (proj1 (auxClick_listeners _ _ Hl1)) |].
  split; [exact (proj2 (auxClick_listeners _ _ Hl1)) |].
  split; [exact Hr2 |].
  split; [exact (proj1 (auxClick_listeners _ _ Hl2)) |].
  split; [exact Hr3 |].
  exact (proj1 (auxClick_listeners _ _ Hl3)).
Qed.

Lemma middle_click_witness :
  exists once again afterDispose,
    renderElement (Some Samples.wide) Samples.inSplit3 Nls.localize Samples.noKeybinding
                  Samples.bash 0 (disposeElement Samples.bash 0 renderTemplate) = Normal once
    /\ auxClick once 1 = [InstanceDispose Samples.bash]
    /\ (forall button, button <> 1 -> auxClick once button = [])
    /\ renderElement (Some Samples.wide) Samples.inSplit3 Nls.localize Samples.noKeybinding
                     Samples.zsh 0 once = Normal again
    /\ auxClick again 1 = [InstanceDispose Samples.bash; InstanceDispose Samples.zsh]
    /\ renderElement (Some Samples.wide) Samples.inSplit3 Nls.localize Samples.noKeybinding
                     Samples.zsh 0 (disposeElement Samples.bash 0 once) = Normal afterDispose
    /\ auxClick afterDispose 1 = [InstanceDispose Samples.zsh].
Proof.
  exact (middle_click_kills_the_rendered_instance
           (Some Samples.wide) Samples.inSplit3 Nls.localize Samples.noKeybinding
           Samples.bash Samples.zsh 0 renderTemplate Samples.split3 Samples.split3
           eq_refl eq_refl).
Defined.

(** The icon of a row without text is the one the specification names. *)
Lemma narrow_labelBody_as_specified (instance : ITerminalInstance) :
  labelBody false instance = "$(" +++ Js.interpolate (shownIconId instance) +++ ")".
Proof.
  unfold labelBody, shownIconId. cbn [negb].
  destruct (primary (statusList instance)) as [st |]; [| reflexivity].
  destruct (severity st); simpl; try reflexivity;
    destruct (statusIcon st) as [i |]; simpl; try reflexivity;
      unfold Js.orElse; simpl; now destruct (Js.truthy (iconId i)).
Qed.

(** X16. The label of a row without text. It is the marker and one icon,
    and it has no description. The icon is that of the primary status when
    there is one whose severity is above [Ignore] and whose icon has an id,
    and that of the instance in every other case: when there is no primary
    status, when its severity is [Ignore], and when it has no icon or its
    icon has an empty id. *)
Theorem narrow_label_shows_primary_status_icon
        (container : option HTMLElement)
        (getGroupForInstance : ITerminalInstance -> option ITerminalGroup)
        (localize : string -> string -> list LocalizeArg -> string)
        (lookupKeybinding : TerminalCommandId.t -> option string)
        (instance : ITerminalInstance) (index : Z)
        (template : ITerminalTabEntryTemplate) (group : ITerminalGroup) :
  getGroupForInstance instance = Some group ->
  shouldHideText container = true ->
  exists rendered l,
    renderElement container getGroupForInstance localize lookupKeybinding
                  instance index template = Normal rendered
    /\ label rendered = Some l
    /\ labelDescription l = None
    /\ labelName l = splitPrefix group instance
                       +++ "$(" +++ Js.interpolate (shownIconId instance) +++ ")"
    /\ (forall st i,
           primary (statusList instance) = Some st ->
           severity st <> Ignore ->
           statusIcon st = Some i -> Js.truthy (iconId i) = true ->
           labelName l = splitPrefix group instance +++ "$(" +++ iconId i +++ ")")
    /\ (forall st,
           primary (statusList instance) = Some st ->
           severity st <> Ignore ->
           (statusIcon st = None
            \/ exists i, statusIcon st = Some i /\ Js.truthy (iconId i) = false) ->
           labelName l = splitPrefix group instance
                           +++ "$(" +++ Js.interpolate (option_map iconId (icon instance))
                           +++ ")")
    /\ ((primary (statusList instance) = None
         \/ exists st, primary (statusList instance) = Some st /\ severity st = Ignore) ->
        labelName l = splitPrefix group instance
                        +++ "$(" +++ Js.interpolate (option_map iconId (icon instance))
                        +++ ")").
Proof.
  intros Hg Htext.
  destruct (renderElement_result container getGroupForInstance localize lookupKeybinding
              instance index template group Hg)
    as (rendered & l & Hr & Hl & Hname & _ & Hdesc & _).
  rewrite Htext in Hname, Hdesc. cbn [negb] in Hname.
  rewrite narrow_labelBody_as_specified in Hname.
  exists rendered, l.
  split; [exact Hr |]. split; [exact Hl |]. split; [exact Hdesc |].
  split; [exact Hname |]. rewrite Hname. unfold shownIconId.
  split; [| split].
  - intros st i Hst Hsev Hicon Hid. rewrite Hst, Hicon, Hid.
    now destruct (severity st).
  - intros st Hst Hsev [Hnone | (i & Hicon & Hid)]; rewrite Hst.
    + rewrite Hnone. now destruct (severity st).
    + rewrite Hicon, Hid. now destruct (severity st).
  - intros [Hnone | (st & Hst & Hsev)].
    + now rewrite Hnone.
    + now rewrite Hst, Hsev.
Qed.

Lemma narrow_label_witness :
  let failed :=
    {| statusId := "relaunch"; severity := Warning;
       statusIcon := None; tooltip := None; statusHoverActions := None |} in
  let instance :=
    {| ref := 1; instanceId := 2; title := "zsh"; icon := Some Samples.terminalIcon;
       color := None;
       statusList := {| statuses := [failed]; primary := Some failed |};
       shellLaunchConfig := {| executable := None; description := Some "task" |};
       shellType := None; isRemote := false; resource := "vscode-terminal:/2" |} in
  exists rendered l,
    renderElement (Some Samples.narrow) Samples.inSplit3 Nls.localize Samples.noKeybinding
                  instance 1 renderTemplate = Normal rendered
    /\ label rendered = Some l
    /\ labelName l = "├ " +++ "$(terminal)".
Proof.
  intros failed instance.
  destruct (narrow_label_shows_primary_status_icon
              (Some Samples.narrow) Samples.inSplit3 Nls.localize Samples.noKeybinding
              instance 1 renderTemplate Samples.split3 eq_refl eq_refl)
    as (rendered & l & Hr & Hl & _ & _ & _ & Hfallback & _).
  exists rendered, l. split; [exact Hr |]. split; [exact Hl |].
  rewrite (Hfallback failed eq_refl); [reflexivity | discriminate | now left].
Defined.

(** X17. The label of a row with text. The title follows the icon only when
    the instance has an icon; an instance without one, for example one
    launched with a name and no icon, is labelled with the marker and an
    icon reference to [undefined], and no title. *)
Theorem title_is_shown_only_with_an_icon
        (container : option HTMLElement)
        (getGroupForInstance : ITerminalInstance -> option ITerminalGroup)
        (localize : string -> string -> list LocalizeArg -> string)
        (lookupKeybinding : TerminalCommandId.t -> option string)
        (instance : ITerminalInstance) (index : Z)
        (template : ITerminalTabEntryTemplate) (group : ITerminalGroup) :
  getGroupForInstance instance = Some group ->
  shouldHideText container = false ->
  exists rendered l,
    renderElement container getGroupForInstance localize lookupKeybinding
                  instance index template = Normal rendered
    /\ label rendered = Some l
    /\ labelDescription l = description (shellLaunchConfig instance)
    /\ (forall i, icon instance = Some i ->
                  labelName l = splitPrefix group instance
                                  +++ "$(" +++ iconId i +++ ") " +++ title instance)
    /\ (icon instance = None ->
        labelName l = splitPrefix group instance +++ "$(undefined)").
Proof.
  intros Hg Htext.
  destruct (renderElement_result container getGroupForInstance localize lookupKeybinding
              instance index template group Hg)
    as (rendered & l & Hr & Hl & Hname & _ & Hdesc & _).
  rewrite Htext in Hname, Hdesc. unfold labelBody in Hname. cbn [negb] in Hname.
  exists rendered, l.
  split; [exact Hr |]. split; [exact Hl |]. split; [exact Hdesc |]. split.
  - intros i Hi. rewrite Hname, Hi. reflexivity.
  - intros Hnone. rewrite Hname, Hnone. reflexivity.
Qed.

Lemma title_only_with_icon_witness :
  let named :=
    {| ref := 5; instanceId := 6; title := "build"; icon := None; color := None;
       statusList := {| statuses := []; primary := None |};
       shellLaunchConfig := {| executable := None; description := None |};
       shellType := None; isRemote := false; resource := "vscode-terminal:/6" |} in
  exists rendered l,
    renderElement (Some Samples.wide) (fun _ => Some {| terminalInstances := [named] |})
                  Nls.localize Samples.noKeybinding named 0 renderTemplate = Normal rendered
    /\ label rendered = Some l
    /\ labelName l = "$(undefined)".
Proof.
  intros named.
  destruct (title_is_shown_only_with_an_icon
              (Some Samples.wide) (fun _ => Some {| terminalInstances := [named] |})
              Nls.localize Samples.noKeybinding named 0 renderTemplate
              {| terminalInstances := [named] |} eq_refl eq_refl)
    as (rendered & l & Hr & Hl & _ & _ & Hname).
  exists rendered, l. split; [exact Hr |]. split; [exact Hl |].
  now rewrite Hname.
Defined.

(** * Further properties of positions, selections and menus *)

(** What [indexOf] returns: [-1] when no element is the one sought, and
    otherwise an index of the list, at which there is one. *)
Lemma indexOfFrom_spec {A : Type} (same : A -> A -> bool) (xs : list A) (x : A) :
  forall from,
    0 <= from ->
    (Js.indexOfFrom same xs x from = -1 /\ forall y, In y xs -> same y x = false)
    \/ (from <= Js.indexOfFrom same xs x from < from + Z.of_nat (List.length xs)
        /\ exists y, nth_error xs (Z.to_nat (Js.indexOfFrom same xs x from - from)) = Some y
                     /\ same y x = true).
Proof.
  induction xs as [| y ys IH]; intros from Hfrom; simpl.
  - left. split; [reflexivity | intros y []].
  - destruct (same y x) eqn:Hy.
    + right. split; [lia |]. exists y. rewrite Z.sub_diag. simpl. auto.
    + destruct (IH (from + 1)) as [[Hk Hnone] | [Hk (z & Hz & Hsame)]]; [lia | |].
      * left. split; [exact Hk |]. intros z [<- | Hz]; [exact Hy | now apply Hnone].
      * right. split; [lia |]. exists z. split; [| exact Hsame].
        replace (Js.indexOfFrom same ys x (from + 1) - from)
          with (Z.succ (Js.indexOfFrom same ys x (from + 1) - (from + 1))) by lia.
        rewrite Z2Nat.inj_succ by lia. exact Hz.
Qed.

Lemma indexOf_absent (members : list ITerminalInstance) (instance : ITerminalInstance) :
  (forall m, In m members -> sameInstance m instance = false) ->
  Js.indexOf sameInstance members instance = -1.
Proof.
  intros Hnone. unfold Js.indexOf.
  destruct (indexOfFrom_spec sameInstance members instance 0) as [[Hk _] | [_ (y & Hy & Hsame)]];
    [lia | exact Hk |].
  apply nth_error_In in Hy. now rewrite (Hnone y Hy) in Hsame.
Qed.

(** X18. When the active instance changes, the list selects and reveals one
    index: the position in [terminalInstances] of the first entry that is
    the instance, which is an index of the list, or [-1] when the instance
    is not in the list; when the event carries no instance the list is left
    alone. *)
Theorem active_instance_selects_its_index
        (instances : list ITerminalInstance) (e : ITerminalInstance) :
  TerminalTabList.onActiveInstanceChanged instances None = []
  /\ exists k,
      TerminalTabList.onActiveInstanceChanged instances (Some e)
      = [ListSetSelection [k]; ListReveal k]
      /\ ((k = -1 /\ forall y, In y instances -> sameInstance y e = false)
          \/ (0 <= k < Z.of_nat (List.length instances)
              /\ exists y, nth_error instances (Z.to_nat k) = Some y
                           /\ sameInstance y e = true)).
Proof.
  split; [reflexivity |].
  exists (Js.indexOf sameInstance instances e). split; [reflexivity |].
  unfold Js.indexOf.
  destruct (indexOfFrom_spec sameInstance instances e 0) as [H | [Hk (y & Hy & Hsame)]];
    [lia | now left |].
  right. split; [lia |]. exists y. rewrite Z.sub_0_r in Hy. auto.
Qed.

(** X19. An instance that is not among the members of the group the service
    returns for it is rendered, without an error, with the middle marker
    when the group has more than one member, and with no marker otherwise. *)
Theorem stranger_to_its_group_gets_the_middle_marker
        (container : option HTMLElement)
        (getGroupForInstance : ITerminalInstance -> option ITerminalGroup)
        (localize : string -> string -> list LocalizeArg -> string)
        (lookupKeybinding : TerminalCommandId.t -> option string)
        (instance : ITerminalInstance) (index : Z)
        (template : ITerminalTabEntryTemplate) (group : ITerminalGroup) :
  getGroupForInstance instance = Some group ->
  (forall m, In m (terminalInstances group) -> sameInstance m instance = false) ->
  exists rendered l,
    renderElement container getGroupForInstance localize lookupKeybinding
                  instance index template = Normal rendered
    /\ label rendered = Some l
    /\ labelName l
       = (if (1 <? List.length (terminalInstances group))%nat then "├ " else "")
           +++ labelBody (negb (shouldHideText container)) instance.
Proof.
  intros Hg Hnone.
  destruct (renderElement_result container getGroupForInstance localize lookupKeybinding
              instance index template group Hg)
    as (rendered & l & Hr & Hl & Hname & _).
  exists rendered, l. split; [exact Hr |]. split; [exact Hl |].
  rewrite Hname. f_equal. unfold splitPrefix. rewrite (indexOf_absent _ _ Hnone).
  unfold Js.length.
  set (n := List.length (terminalInstances group)).
  destruct (Nat.ltb_spec 1 n).
  - destruct (Z.gtb_spec (Z.of_nat n) 1); [| lia].
    destruct (Z.eqb_spec (-1) (Z.of_nat n - 1)); [lia | reflexivity].
  - destruct (Z.gtb_spec (Z.of_nat n) 1); [lia | reflexivity].
Qed.

Lemma stranger_witness :
  let pair := {| terminalInstances := [Samples.bash; Samples.zsh] |} in
  exists rendered l,
    renderElement (Some Samples.wide) (fun _ => Some pair) Nls.localize Samples.noKeybinding
                  Samples.fish 0 renderTemplate = Normal rendered
    /\ label rendered = Some l
    /\ labelName l = "├ " +++ "$(terminal) fish".
Proof.
  intros pair.
  apply (stranger_to_its_group_gets_the_middle_marker
           (Some Samples.wide) (fun _ => Some pair) Nls.localize Samples.noKeybinding
           Samples.fish 0 renderTemplate pair eq_refl).
  intros m [<- | [<- | []]]; reflexivity.
Defined.

(** X20. For an instance that is not among the members of a group of more
    than one member that the service returns for it, the label read out
    gives the split number 0. *)
Theorem stranger_to_its_group_is_split_zero
        (getGroupForInstance : ITerminalInstance -> option ITerminalGroup)
        (localize : string -> string -> list LocalizeArg -> string)
        (instance : ITerminalInstance) (tab : ITerminalGroup) :
  getGroupForInstance instance = Some tab ->
  (1 < List.length (terminalInstances tab))%nat ->
  (forall m, In m (terminalInstances tab) -> sameInstance m instance = false) ->
  TerminalTabsAccessibilityProvider.getAriaLabel getGroupForInstance localize instance
  = localize "splitTerminalAriaLabel" "Terminal {0} {1}, split {2} of {3}"
             [ArgNumber (instanceId instance); ArgString (title instance);
              ArgNumber 0;
              ArgNumber (Z.of_nat (List.length (terminalInstances tab)))].
Proof.
  intros Hg Hsize Hnone.
  unfold TerminalTabsAccessibilityProvider.getAriaLabel. rewrite Hg. unfold Js.length.
  destruct (Z.gtb_spec (Z.of_nat (List.length (terminalInstances tab))) 1); [| lia].
  unfold TerminalTabsAccessibilityProvider.splitLabel, Js.length.
  now rewrite (indexOf_absent _ _ Hnone).
Qed.

Lemma stranger_split_zero_witness :
  TerminalTabsAccessibilityProvider.getAriaLabel
    (fun _ => Some {| terminalInstances := [Samples.bash; Samples.zsh] |})
    Nls.localize Samples.fish
  = "Terminal 3 fish, split 0 of 2".
Proof.
  rewrite (stranger_to_its_group_is_split_zero
             (fun _ => Some {| terminalInstances := [Samples.bash; Samples.zsh] |})
             Nls.localize Samples.fish
             {| terminalInstances := [Samples.bash; Samples.zsh] |} eq_refl).
  - reflexivity.
  - simpl. lia.
  - intros m [<- | [<- | []]]; reflexivity.
Defined.

Lemma callbacks_on_present_rows (callback : ITerminalInstance -> ServiceCall)
      (selection : list (option ITerminalInstance)) :
  flat_map (fun s => match s with
                     | Some i => [callback i]
                     | None => []
                     end) selection
  = map callback (presentRows selection).
Proof.
  induction selection as [| [i |] rest IH]; simpl; [reflexivity | | exact IH].
  now rewrite IH.
Qed.

(** X21. A row action (split, kill) started on a row always acts on the
    instance of that row. When that instance is selected, the action acts
    on every selected instance, in the order of the selection and skipping
    rows that hold none; when it is not, the action acts on it alone and
    leaves the selected instances untouched. Afterwards the tabs take the
    focus and, when there is a last focused list, its next row. *)
Theorem row_action_acts_on_the_row_or_the_selection
        (selection : list (option ITerminalInstance)) (lastFocusedList : bool)
        (instance : ITerminalInstance) (callback : ITerminalInstance -> ServiceCall) :
  exists targets,
    _runForSelectionOrInstance selection lastFocusedList instance callback
    = map callback targets
          ++ FocusTabs :: (if lastFocusedList then [ListFocusNext] else [])
    /\ (exists j, In j targets /\ sameInstance j instance = true)
    /\ (Js.includes sameTarget selection (Some instance) = true ->
        targets = presentRows selection)
    /\ (Js.includes sameTarget selection (Some instance) = false ->
        targets = [instance]).
Proof.
  unfold _runForSelectionOrInstance.
  destruct (Js.includes sameTarget selection (Some instance)) eqn:Hin.
  - exists (presentRows selection). rewrite callbacks_on_present_rows.
    split; [reflexivity |]. split; [| split; [reflexivity | discriminate]].
    unfold Js.includes in Hin. apply existsb_exists in Hin as (x & Hx & Hsame).
    destruct x as [j |]; [| discriminate].
    exists j. split; [| exact Hsame].
    unfold presentRows. apply in_flat_map. exists (Some j). split; [exact Hx | now left].
  - exists [instance]. split; [reflexivity |].
    split; [| split; [discriminate | reflexivity]].
    exists instance. split; [now left | apply sameInstance_refl].
Qed.

(** X22. A right click. On empty space it clears the selection. On a row it
    never touches the selection: it does nothing when the row is one of the
    selected elements, and otherwise moves the focus to the index of the
    row, or to no row when the event has no index. *)
Theorem context_menu_keeps_the_selection_on_rows
        (getSelectedElements : option (list ITerminalInstance))
        (e : TerminalTabList.IListMouseEvent) :
  (TerminalTabList.element e = None ->
   TerminalTabList.onContextMenu getSelectedElements e = [ListSetSelection []])
  /\ (forall el,
         TerminalTabList.element e = Some el ->
         (forall indexes,
             ~ In (ListSetSelection indexes)
                  (TerminalTabList.onContextMenu getSelectedElements e))
         /\ (TerminalTabList.onContextMenu getSelectedElements e = []
             <-> exists selection s,
                 getSelectedElements = Some selection
                 /\ In s selection /\ sameInstance el s = true)
         /\ (TerminalTabList.onContextMenu getSelectedElements e <> [] ->
             TerminalTabList.onContextMenu getSelectedElements e
             = [ListSetFocus match TerminalTabList.index e with
                             | Some i => [i]
                             | None => []
                             end])).
Proof.
  unfold TerminalTabList.onContextMenu. split.
  - now intros ->.
  - intros el ->.
    destruct getSelectedElements as [selection |]; simpl.
    + destruct (existsb (fun s => sameInstance el s) selection) eqn:Hfound; simpl.
      * apply existsb_exists in Hfound as (s & Hs & Hsame).
        split; [intros indexes [] |]. split; [| now intros H].
        split; [| reflexivity]. intros _. now exists selection, s.
      * split; [intros indexes [H | []]; discriminate H |].
        split; [| reflexivity]. split; [discriminate |].
        intros (selection' & s & Hsel & Hs & Hsame). injection Hsel as <-.
        assert (Hex : existsb (fun s => sameInstance el s) selection = true).
        { apply existsb_exists. now exists s. }
        now rewrite Hex in Hfound.
    + split; [intros indexes [H | []]; discriminate H |].
      split; [| reflexivity]. split; [discriminate |].
      intros (selection' & s & Hsel & _). discriminate Hsel.
Qed.

Lemma active_instance_witness :
  TerminalTabList.onActiveInstanceChanged [Samples.bash; Samples.zsh; Samples.fish]
                                          (Some Samples.zsh)
  = [ListSetSelection [1]; ListReveal 1]
  /\ TerminalTabList.onActiveInstanceChanged [Samples.bash] (Some Samples.fish)
     = [ListSetSelection [-1]; ListReveal (-1)].
Proof.
  split.
  - destruct (proj2 (active_instance_selects_its_index
                       [Samples.bash; Samples.zsh; Samples.fish] Samples.zsh))
      as (k & Hcalls & _).
    rewrite Hcalls. injection Hcalls as <-. reflexivity.
  - destruct (proj2 (active_instance_selects_its_index [Samples.bash] Samples.fish))
      as (k & Hcalls & _).
    rewrite Hcalls. injection Hcalls as <-. reflexivity.
Defined.

Lemma row_action_witness :
  _runForSelectionOrInstance [Some Samples.bash; None; Some Samples.fish] true
                             Samples.fish InstanceDispose
  = [InstanceDispose Samples.bash; InstanceDispose Samples.fish; FocusTabs; ListFocusNext]
  /\ _runForSelectionOrInstance [Some Samples.bash; None; Some Samples.fish] false
                                Samples.zsh InstanceDispose
     = [InstanceDispose Samples.zsh; FocusTabs].
Proof.
  split.
  - destruct (row_action_acts_on_the_row_or_the_selection
                [Some Samples.bash; None; Some Samples.fish] true
                Samples.fish InstanceDispose) as (targets & Hcalls & _ & Hsel & _).
    rewrite Hcalls, (Hsel eq_refl). reflexivity.
  - destruct (row_action_acts_on_the_row_or_the_selection
                [Some Samples.bash; None; Some Samples.fish] false
                Samples.zsh InstanceDispose) as (targets & Hcalls & _ & _ & Hrow).
    rewrite Hcalls, (Hrow eq_refl). reflexivity.
Defined.

Lemma context_menu_witness :
  TerminalTabList.onContextMenu
    (Some [Samples.bash; Samples.zsh])
    {| TerminalTabList.altKey := false;
       TerminalTabList.element := Some Samples.fish;
       TerminalTabList.index := Some 2 |}
  = [ListSetFocus [2]].
Proof.
  apply (proj2 (context_menu_keeps_the_selection_on_rows
                  (Some [Samples.bash; Samples.zsh])
                  {| TerminalTabList.altKey := false;
                     TerminalTabList.element := Some Samples.fish;
                     TerminalTabList.index := Some 2 |})
               Samples.fish eq_refl).
  discriminate.
Defined.

Lemma now_deliverAll_same_row (i : ITerminalInstance) (d bound : Z) (ts : list Z) :
  forall s, armedFor i d s -> Forall (fun t => t < d) ts ->
            Forall (fun t => t <= bound) ts -> now s <= bound ->
            now (deliverAll (holdOver i ts) s) <= bound.
Proof.
  induction ts as [| t ts IH]; intros s Harm Hts Hbound Hnow; [exact Hnow |].
  inversion Hts as [| t' ts' Ht Hts']; subst.
  inversion Hbound as [| t' ts' Hb Hbound']; subst.
  destruct (deliver_same_row s i d t Harm Ht) as (Harm' & _ & Hnow').
  change (deliverAll (holdOver i (t :: ts)) s)
    with (deliverAll (holdOver i ts) (deliver s (externalOver t i))).
  apply IH; [exact Harm' | exact Hts' | exact Hbound' | lia].
Qed.

(** X23. Moving to another row restarts the delay. When an external drag
    that entered a row moves to a second row at time [t], before the 500 ms
    have elapsed, the time spent on the first row does not count: nothing is
    activated before [t + 500], and from then on the second row has been
    activated, once, and the first not at all. *)
Theorem moving_to_another_row_restarts_the_delay
        (s : State) (i j : ITerminalInstance) (ts : list Z) (t T : Z) :
  singleTimer s = true ->
  sameTarget (_autoFocusInstance s) (Some i) = false ->
  sameInstance i j = false ->
  Forall (fun u => u < now s + 500) ts ->
  Forall (fun u => u <= t) ts ->
  now s <= t < now s + 500 ->
  let moved := deliver (deliverAll (holdOver i ts)
                          (snd (onDragOver ExternalDragAndDropData (Some i) None noEvent s)))
                       (externalOver t j) in
  (T < t + 500 -> calls (advance T moved) = calls s)
  /\ (t + 500 <= T -> calls (advance T moved) = calls s ++ [SetActiveInstance j]).
Proof.
  intros Hsingle Hchange Hij Hts Hbound [Hlo Hhi] moved.
  destruct (entered_then_held s i ts Hsingle Hchange Hts) as (Harm & Hcalls & _).
  destruct (onDragOver_arms s i None noEvent Hsingle Hchange) as (Harm0 & _ & Hnow0).
  assert (Hnow : now (deliverAll (holdOver i ts)
                        (snd (onDragOver ExternalDragAndDropData (Some i) None noEvent s)))
                 <= t).
  { apply (now_deliverAll_same_row i (now s + autoFocusDelay) t ts);
      [exact Harm0 | exact Hts | exact Hbound | lia]. }
  destruct (deliver_other_row _ i j _ t Harm Hhi Hij) as (Harm' & Hcalls').
  fold moved in Harm', Hcalls'.
  rewrite Z.max_r in Harm' by exact Hnow.
  split; intros HT.
  - destruct (advance_before_due moved j _ T Harm') as (_ & Hc & _).
    { unfold autoFocusDelay. lia. }
    now rewrite Hc, Hcalls'.
  - destruct (advance_fires moved j _ T Harm') as (Hc & _).
    { unfold autoFocusDelay. lia. }
    rewrite Hc, Hcalls'. f_equal. exact Hcalls.
Qed.

Lemma moving_restarts_witness :
  let moved := deliver (deliverAll (holdOver Samples.bash [100; 300])
                          (snd (onDragOver ExternalDragAndDropData (Some Samples.bash)
                                           None noEvent initial)))
                       (externalOver 400 Samples.zsh) in
  calls (advance 899 moved) = [] /\ calls (advance 900 moved) = [SetActiveInstance Samples.zsh].
Proof.
  assert (H : forall T,
             (T < 400 + 500 ->
              calls (advance T
                       (deliver (deliverAll (holdOver Samples.bash [100; 300])
                                   (snd (onDragOver ExternalDragAndDropData
                                                    (Some Samples.bash) None noEvent initial)))
                                (externalOver 400 Samples.zsh))) = [])
             /\ (400 + 500 <= T ->
                 calls (advance T
                          (deliver (deliverAll (holdOver Samples.bash [100; 300])
                                      (snd (onDragOver ExternalDragAndDropData
                                                       (Some Samples.bash) None noEvent
                                                       initial)))
                                   (externalOver 400 Samples.zsh)))
                 = [SetActiveInstance Samples.zsh])).
  { intros T.
    apply (moving_to_another_row_restarts_the_delay
             initial Samples.bash Samples.zsh [100; 300] 400 T).
    - reflexivity.
    - reflexivity.
    - reflexivity.
    - repeat constructor; reflexivity.
    - repeat constructor; discriminate.
    - split; [discriminate | reflexivity]. }
  split.
  - apply (proj1 (H 899)). reflexivity.
  - apply (proj2 (H 900)). discriminate.
Defined.

(** X24. A row without text never has an action bar: whenever the container
    is too narrow for the text, the bar that [renderElement] leaves is
    empty, also when the template comes with the actions of a row rendered
    before and although [fillActionBar] is not called to clear them. *)
Theorem row_without_text_has_no_action_bar
        (container : option HTMLElement)
        (getGroupForInstance : ITerminalInstance -> option ITerminalGroup)
        (localize : string -> string -> list LocalizeArg -> string)
        (lookupKeybinding : TerminalCommandId.t -> option string)
        (instance : ITerminalInstance) (index : Z)
        (template : ITerminalTabEntryTemplate) (group : ITerminalGroup) :
  getGroupForInstance instance = Some group ->
  shouldHideText container = true ->
  shouldHideActionBar container = true
  /\ exists rendered,
      renderElement container getGroupForInstance localize lookupKeybinding
                    instance index template = Normal rendered
      /\ hasTextClass rendered = false
      /\ actionBar rendered = [].
Proof.
  intros Hg Htext.
  assert (Hbar : shouldHideActionBar container = true).
  { destruct container as [c |]; [| discriminate].
    unfold shouldHideText, shouldHideActionBar in *.
    change TerminalTabsListSizes.MidpointViewWidth with 63 in Htext.
    change TerminalTabsListSizes.ActionbarMinimumWidth with 105.
    apply Z.ltb_lt in Htext. apply Z.leb_le. lia. }
  split; [exact Hbar |].
  destruct (renderElement_result container getGroupForInstance localize lookupKeybinding
              instance index template group Hg)
    as (rendered & l & Hr & _ & _ & _ & _ & _ & _ & Hitems).
  destruct (renderElement_with_group container getGroupForInstance localize lookupKeybinding
              instance index template group Hg)
    as (rendered' & l' & Hr' & _ & _ & Hclass & _).
  rewrite Hr in Hr'. injection Hr' as <-.
  exists rendered. split; [exact Hr |]. split.
  - now rewrite Hclass, Htext.
  - now rewrite Hitems, Hbar.
Qed.

Lemma row_without_text_witness :
  let reused := fillActionBar Nls.localize Samples.noKeybinding Samples.bash renderTemplate in
  List.length (actionBar reused) = 2%nat
  /\ exists rendered,
      renderElement (Some Samples.narrow) Samples.inSplit3 Nls.localize Samples.noKeybinding
                    Samples.zsh 1 reused = Normal rendered
      /\ hasTextClass rendered = false
      /\ actionBar rendered = [].
Proof.
  split; [reflexivity |].
  exact (proj2 (row_without_text_has_no_action_bar
                  (Some Samples.narrow) Samples.inSplit3 Nls.localize Samples.noKeybinding
                  Samples.zsh 1
                  (fillActionBar Nls.localize Samples.noKeybinding Samples.bash renderTemplate)
                  Samples.split3 eq_refl eq_refl)).
Defined.
